(** * icetea-web3: the client's query builder, subscription registry and
    push-message router (src/index.js, class IceTeaWeb3)

    A shallow embedding of [getPastEvents], [searchTransactions],
    [subscribe], [unsubscribe], the [on*] registration methods and the
    [onMessage] handler that [subscribe] installs, followed by the
    properties of the routing protocol that hold of them. *)

From Stdlib Require Import ZArith String Ascii List Bool Lia.
From stdpp Require Import base strings list gmap pretty.
Import ListNotations.
Open Scope string_scope.
Set Warnings "-register-all".

(** ** JavaScript values *)

Module Js.

(** Values that JSON text, event records and reshaped envelopes are made
    of.  An object lists its own properties in the order [Object.keys]
    and [JSON.stringify] go through them, which for names that are not
    array indices is the order of insertion.  [VNum n] is the number
    whose value is the integer [n]. *)
Inductive Value : Type :=
| VUndefined
| VNull
| VBool (b : bool)
| VNum (n : Z)
| VStr (s : string)
| VArr (elems : list Value)
| VObj (fields : list (string * Value)).

(** The own properties of an object, in that order. *)
Definition Object : Type := list (string * Value).

(** Primitive values, the type of a condition's value
    ([{fromBlock: 0, toBlock: 100, someIndexedField: 'xxx'}]).  [SNum n]
    is the number that the integer literal [n] denotes: the double
    nearest to [n] (see [Number_ofZ]). *)
Inductive Scalar : Type :=
| SUndefined
| SNull
| SBool (b : bool)
| SNum (n : Z)
| SStr (s : string).

(** A function value: an opaque identity.  Calls to it are recorded. *)
Definition Fn : Type := nat.

Inductive Error : Type :=
| SyntaxError
| TypeError
| Err (message : string).

(** Outcome of evaluating a statement list: a value or a thrown error. *)
Inductive Completion (A : Type) : Type :=
| Normal (a : A)
| Throw (e : Error).
Arguments Normal {A} a.
Arguments Throw {A} e.

(** [o[k]] on the own properties [o]: the first binding of [k]. *)
Fixpoint own {V : Type} (o : list (string * V)) (k : string) : option V :=
  match o with
  | [] => None
  | (k', v) :: rest => if String.eqb k' k then Some v else own rest k
  end.

(** [o[k] = v]: an existing property keeps its place, a new one is added
    last. *)
Fixpoint assign {V : Type} (o : list (string * V)) (k : string) (v : V)
  : list (string * V) :=
  match o with
  | [] => [(k, v)]
  | (k', v') :: rest =>
      if String.eqb k' k then (k', v) :: rest else (k', v') :: assign rest k v
  end.

Definition Object_keys {V : Type} (o : list (string * V)) : list string :=
  map fst o.

(** [v.k] for a property name [k] that no prototype defines ([id],
    [jsonrpc], [result], [eventName]): reading it off [null] or
    [undefined] throws, off any other non-object it is [undefined]. *)
Definition member (v : Value) (k : string) : Completion Value :=
  match v with
  | VUndefined | VNull => Throw TypeError
  | VObj fields => Normal (default VUndefined (own fields k))
  | _ => Normal VUndefined
  end.

(** ToBoolean. *)
Definition truthy (v : Value) : bool :=
  match v with
  | VUndefined | VNull => false
  | VBool b => b
  | VNum n => negb (n =? 0)%Z
  | VStr s => negb (String.eqb s "")
  | VArr _ | VObj _ => true
  end.

(** [s === v] for a string [s]. *)
Definition strict_eq_string (s : string) (v : Value) : bool :=
  match v with
  | VStr s' => String.eqb s s'
  | _ => false
  end.

(** [hay.indexOf(needle) >= 0] on strings. *)
Definition includes (hay needle : string) : bool :=
  match String.index 0 needle hay with
  | Some _ => true
  | None => false
  end.

(** [v.indexOf(needle) >= 0] for a string [needle]: [String.prototype.indexOf]
    on a string, [Array.prototype.indexOf] on an array; no other value that
    JSON text denotes has a callable [indexOf]. *)
Definition indexOf_found (v : Value) (needle : string) : Completion bool :=
  match v with
  | VStr hay => Normal (includes hay needle)
  | VArr elems => Normal (existsb (strict_eq_string needle) elems)
  | _ => Throw TypeError
  end.

(** Numbers are doubles.  Those met in a condition mapping and in the
    clauses built from it have an integer value or none: [Finite n] is the
    double whose value is the integer [n] (so [nearest (Z.abs n)] is
    [Z.abs n], and [Z.abs n < 2^1024]). *)
Inductive Number : Type :=
| NaN
| Infinity (negative : bool)
| Finite (n : Z).

(** The double nearest to the natural number [m], as a natural number:
    every integer up to 2^53 is a double; above, a double keeps the 53
    leading bits, the rest being rounded to the nearest, a tie to the even
    significand. *)
Definition nearest (m : Z) : Z :=
  if (m <=? 9007199254740992)%Z then m else
  let e := (Z.log2 m - 52)%Z in
  let q := Z.shiftr m e in
  let r := Z.land m (Z.ones e) in
  let half := Z.shiftl 1 (e - 1) in
  let q := if (half <? r)%Z || ((r =? half)%Z && Z.odd q) then (q + 1)%Z else q in
  Z.shiftl q e.

(** The number an integer literal denotes, and the result of an
    arithmetic operation whose exact value is the integer [z]: what
    rounds to 2^1024 or beyond is infinite. *)
Definition Number_ofZ (z : Z) : Number :=
  let m := nearest (Z.abs z) in
  if (1024 <=? Z.log2 m)%Z then Infinity (z <? 0)%Z
  else Finite (Z.sgn z * m).

(** [x + k] for an integer [k] (and [x - k] as [x + -k]). *)
Definition Number_add (x : Number) (k : Z) : Number :=
  match x with
  | Finite n => Number_ofZ (n + k)
  | _ => x
  end.

(** The multiple of a power of ten with the fewest significant digits
    among those whose nearest double is [m], and that power: of the
    multiples of [10^p], only the two around [m] can be read back as [m];
    when both are, the one closer to [m] is taken (the even one when they
    are as close).  The search goes down from [10^p]. *)
Fixpoint shortest (p : nat) (m : Z) : Z * nat :=
  match p with
  | O => (m, O)
  | S p' =>
      let unit := (10 ^ Z.of_nat p)%Z in
      let lo := (m / unit * unit)%Z in
      let hi := (lo + unit)%Z in
      let below := (nearest lo =? m)%Z in
      let above := (nearest hi =? m)%Z in
      if below && above then
        if (m - lo <? hi - m)%Z then (lo, p)
        else if (hi - m <? m - lo)%Z then (hi, p)
        else if Z.even (m / unit) then (lo, p) else (hi, p)
      else if below then (lo, p)
      else if above then (hi, p)
      else shortest p' m
  end.

(** The digits of a double [m] above 2^53: with [k] significant digits
    [s] and [n] digits before the decimal point, the digits of [s]
    followed by [n - k] zeros when [n <= 21], and the exponent form
    [d.ddde+x] beyond. *)
Definition decimal (m : Z) : string :=
  let '(y, p) := shortest (String.length (pretty m)) m in
  let s := (y / 10 ^ Z.of_nat p)%Z in
  let n := (String.length (pretty s) + p)%nat in
  if (n <=? 21)%nat then pretty y
  else
    match pretty s with
    | String d rest =>
        String d (if String.eqb rest "" then "" else "." +:+ rest)
        +:+ "e+" +:+ pretty (n - 1)%nat
    | EmptyString => ""
    end.

(** Number::toString in radix 10, on the numbers above.  An integer up to
    2^53 in magnitude is written with all its digits. *)
Definition Number_toString (x : Number) : string :=
  match x with
  | NaN => "NaN"
  | Infinity false => "Infinity"
  | Infinity true => "-Infinity"
  | Finite n =>
      if (Z.abs n <=? 9007199254740992)%Z then pretty n
      else (if (n <? 0)%Z then "-" else "") +:+ decimal (Z.abs n)
  end.

(** [`${v}`] *)
Definition Scalar_toString (v : Scalar) : string :=
  match v with
  | SUndefined => "undefined"
  | SNull => "null"
  | SBool true => "true"
  | SBool false => "false"
  | SNum n => Number_toString (Number_ofZ n)
  | SStr s => s
  end.

End Js.
Import Js.

(** ** What the client takes from its runtime and from ./utils

    [JSON.parse] ([None] when it throws a SyntaxError), [JSON.stringify],
    the conversion of a string operand to a number (the integer that the
    string denotes, which is then read as the double nearest to it, and
    [None] for NaN; a numeric string that denotes a non-integer lies
    outside the numbers modelled here), and [decodeEventData] of ./utils,
    a pure function from a result payload to the event records of a
    transaction. *)
Class Runtime : Type := {
  JSON_parse : string -> option Value;
  JSON_stringify : Value -> string;
  StringToNumber : string -> option Z;
  decodeEventData : Value -> list Object
}.

(** ** Query builder *)

(** The [conditions] argument: a query string, an object literal (its own
    properties in the order of [Object.keys]), a function (in [subscribe],
    the callback in second position) or nothing. *)
Inductive Conditions : Type :=
| CondMissing
| CondString (query : string)
| CondObject (o : list (string * Scalar))
| CondFunction (f : Fn).

(** Default parameter [conditions = {}]. *)
Definition default_conditions (conditions : Conditions) : Conditions :=
  match conditions with
  | CondMissing => CondObject []
  | c => c
  end.

(** Own enumerable properties of a non-string [conditions]: those of the
    object literal; a plain function has none. *)
Definition properties (conditions : Conditions) : list (string * Scalar) :=
  match conditions with
  | CondObject o => o
  | _ => []
  end.

Section QueryBuilder.
Context `{Runtime}.

Definition ToNumber (v : Scalar) : Number :=
  match v with
  | SUndefined => NaN
  | SNull => Finite 0
  | SBool b => Finite (if b then 1 else 0)
  | SNum n => Number_ofZ n
  | SStr s =>
      match StringToNumber s with
      | Some z => Number_ofZ z
      | None => NaN
      end
  end.

(** [`${value - 1}`] *)
Definition minus_one (value : Scalar) : string :=
  Number_toString (Number_add (ToNumber value) (-1)).

(** [`${value + 1}`]: [+] concatenates when an operand is a string. *)
Definition plus_one (value : Scalar) : string :=
  match value with
  | SStr s => s +:+ "1"
  | _ => Number_toString (Number_add (ToNumber value) 1)
  end.

(** One step of the reducer shared by [getPastEvents] and [subscribe]:
    the clause pushed for [key]. *)
Definition clause (o : list (string * Scalar)) (key : string) : string :=
  let value := default SUndefined (own o key) in
  if String.eqb key "fromBlock" then "tx.height>" +:+ minus_one value
  else if String.eqb key "toBlock" then "tx.height<" +:+ plus_one value
  else key +:+ "=" +:+ Scalar_toString value.

(** [Object.keys(conditions).reduce((arr, key) => ..., [seed]).join(' AND ')] *)
Definition reduce_join (seed : string) (o : list (string * Scalar)) : string :=
  String.concat " AND "
    (fold_left (fun arr key => (arr ++ [clause o key])%list) (Object_keys o) [seed]).

(** The [emitter] argument of [getPastEvents] after its rewrite. *)
Definition emitter_scope (emitter : option string) : string :=
  match emitter with
  | None => "."
  | Some e => if String.eqb e "" then "." else "|" +:+ e +:+ "."
  end.

(** The value of [query] in [getPastEvents] before it is handed to
    [searchTransactions]. *)
Definition getPastEvents_query
    (eventName : string) (emitter : option string) (conditions : Conditions)
  : string :=
  match default_conditions conditions with
  | CondString s => s
  | c =>
      reduce_join
        ("EventNames CONTAINS '" +:+ emitter_scope emitter +:+ eventName +:+ "|'")
        (properties c)
  end.

End QueryBuilder.

(** ** The subscription registry: [this.subscriptions] *)

Module Subscription.
Record t : Type := make { id : string; subscribeMethod : string; query : string }.
End Subscription.

(** [this.subscriptions] is a plain object used as a map from subscription
    id to record.  [entries] are its own properties.  Assigning a record
    under the key [__proto__] runs the setter that [Object.prototype]
    defines for that key, which creates no own property and makes the
    record the prototype of the object: [proto] is then that record. *)
Record Registry : Type := {
  entries : gmap string Subscription.t;
  proto : option Subscription.t
}.

Definition empty_registry : Registry := {| entries := ∅; proto := None |}.

(** The property names every plain object inherits from [Object.prototype]. *)
Definition Object_prototype : list string :=
  [ "constructor"; "hasOwnProperty"; "isPrototypeOf"; "propertyIsEnumerable";
    "toLocaleString"; "toString"; "valueOf"; "__proto__";
    "__defineGetter__"; "__defineSetter__"; "__lookupGetter__";
    "__lookupSetter__" ].

Definition record_fields : list string := [ "id"; "subscribeMethod"; "query" ].

Definition mem (k : string) (l : list string) : bool := existsb (String.eqb k) l.
Arguments mem : simpl never.

(** What the property read [this.subscriptions[k]] yields. *)
Inductive Slot : Type :=
| Absent                         (* undefined *)
| Entry (s : Subscription.t)     (* a subscription record *)
| Inherited.                     (* another value, found on the prototype chain *)

Definition lookup_subscription (subs : Registry) (k : string) : Slot :=
  match entries subs !! k with
  | Some s => Entry s
  | None =>
      if String.eqb k "__proto__" then
        match proto subs with
        | Some s => Entry s
        | None => Inherited
        end
      else if match proto subs with
              | Some _ => mem k record_fields
              | None => false
              end then Inherited
      else if mem k Object_prototype then Inherited
      else Absent
  end.

(** [this.subscriptions[k] = s] *)
Definition store_subscription (subs : Registry) (k : string) (s : Subscription.t)
  : Registry :=
  if String.eqb k "__proto__"
  then {| entries := entries subs; proto := Some s |}
  else {| entries := <[k := s]> (entries subs); proto := proto subs |}.

(** [delete this.subscriptions[k]]: removes an own property. *)
Definition delete_subscription (subs : Registry) (k : string) : Registry :=
  {| entries := delete k (entries subs); proto := proto subs |}.

(** [typeof slot !== 'undefined'] *)
Definition defined (slot : Slot) : bool :=
  match slot with
  | Absent => false
  | _ => true
  end.

(** [slot.query]: throws on [undefined]; a value that is not a subscription
    record has no such property. *)
Definition query_of (slot : Slot) : Completion (option string) :=
  match slot with
  | Absent => Throw TypeError
  | Entry s => Normal (Some (Subscription.query s))
  | Inherited => Normal None
  end.

(** ** The transport: [this.rpc] *)

(** A request handed to [rpc.call(method, { query, ...options })].  The
    [options] are forwarded untouched and are left out. *)
Record Request : Type := { method : string; params_query : option string }.

Module Result.
(** What a [subscribe] request resolves to: the server's response, which
    carries the subscription id. *)
Record t : Type := make { id : string }.
End Result.

Module Closure.
(** The variables of a [subscribe] call that its [then] callback and the
    [onMessage] handler close over. *)
Record t : Type := make {
  isSystemEvent : bool;
  nonSystemEventName : option string;
  eventName : string;
  query : string;
  callback : option Fn
}.
End Closure.

(** The kinds of listener. *)
Inductive Kind : Type := OnMessage | OnResponse | OnError | OnClose.

Definition kind_name (kind : Kind) : string :=
  match kind with
  | OnMessage => "onMessage"
  | OnResponse => "onResponse"
  | OnError => "onError"
  | OnClose => "onClose"
  end.

(** A function registered with [rpc.registerEventListener]: one the caller
    passed to [onMessage], [onResponse], [onError] or [onClose], or the
    arrow function that the [then] callback of [subscribe] creates. *)
Inductive Listener : Type :=
| UserListener (callback : Fn)
| SubscriptionListener (c : Closure.t) (result : Result.t).

(** Modelled from the spec: the Transport (./providers/HttpProvider and
    ./providers/WebsocketProvider are not among the sources).  It sends
    requests ([call]), keeps the listeners registered per kind
    ([registerEventListener]) and can be closed ([close]). *)
Record Provider : Type := {
  sent : list Request;
  listeners : list (string * Listener);
  closed : bool
}.

(** Modelled from the spec: [request(method, params) -> Promise<Result>];
    the request goes out and its promise is pending. *)
Definition call (rpc : Provider) (m : string) (q : option string) : Provider :=
  {| sent := sent rpc ++ [{| method := m; params_query := q |}];
     listeners := listeners rpc;
     closed := closed rpc |}.

(** Modelled from the spec: [registerListener(kind, handler)]. *)
Definition registerEventListener (rpc : Provider) (kind : string) (l : Listener)
  : Provider :=
  {| sent := sent rpc;
     listeners := listeners rpc ++ [(kind, l)];
     closed := closed rpc |}.

(** Modelled from the spec: [close()]. *)
Definition close_provider (rpc : Provider) : Provider :=
  {| sent := sent rpc; listeners := listeners rpc; closed := true |}.

Definition new_provider : Provider :=
  {| sent := []; listeners := []; closed := false |}.

(** ** The client *)

Record IceTeaWeb3 : Type := {
  isWebSocket : bool;
  rpc : Provider;
  subscriptions : Registry;
  countSubscribeEvent : nat
}.

Definition constructor (endpoint : string) : IceTeaWeb3 :=
  {| isWebSocket := String.prefix "ws://" endpoint || String.prefix "wss://" endpoint;
     rpc := new_provider;
     subscriptions := empty_registry;
     countSubscribeEvent := 0 |}.

Definition set_rpc (this : IceTeaWeb3) (r : Provider) : IceTeaWeb3 :=
  {| isWebSocket := isWebSocket this; rpc := r;
     subscriptions := subscriptions this;
     countSubscribeEvent := countSubscribeEvent this |}.

Definition set_subscriptions (this : IceTeaWeb3) (s : Registry) : IceTeaWeb3 :=
  {| isWebSocket := isWebSocket this; rpc := rpc this;
     subscriptions := s;
     countSubscribeEvent := countSubscribeEvent this |}.

Definition set_countSubscribeEvent (this : IceTeaWeb3) (n : nat) : IceTeaWeb3 :=
  {| isWebSocket := isWebSocket this; rpc := rpc this;
     subscriptions := subscriptions this;
     countSubscribeEvent := n |}.

Definition close (this : IceTeaWeb3) : IceTeaWeb3 :=
  if isWebSocket this then set_rpc this (close_provider (rpc this)) else this.

Definition dquote : string := String "034"%char "".

(** [searchTransactions (query, options)] *)
Definition searchTransactions (this : IceTeaWeb3) (query : string)
  : Completion IceTeaWeb3 :=
  if String.eqb query ""
  then Throw (Err ("query is required, example " +:+ dquote +:+ "tx.height>0" +:+ dquote))
  else Normal (set_rpc this (call (rpc this) "tx_search" (Some query))).

Definition systemEvent : list string :=
  [ "NewBlock"; "NewBlockHeader"; "Tx"; "RoundState"; "NewRound";
    "CompleteProposal"; "Vote"; "ValidatorSetUpdates"; "ProposalString" ].

(** [for (var i = 0; i < n; i++) { space = space + ' ' }] from [space = ''] *)
Fixpoint spaces (n : nat) : string :=
  match n with
  | O => ""
  | S n' => spaces n' +:+ " "
  end.

(** [a || b] on strings, [a] possibly undefined. *)
Definition or_else (a : option string) (b : string) : string :=
  match a with
  | Some s => if String.eqb s "" then b else s
  | None => b
  end.

(** [a === v] for [a] a string or undefined. *)
Definition strict_eq (a : option string) (v : Value) : bool :=
  match a, v with
  | Some s, _ => strict_eq_string s v
  | None, VUndefined => true
  | None, _ => false
  end.

(** A call of a callback, with its arguments. *)
Record Call : Type := { callee : Fn; arguments : list Value }.

(** Statements that call callbacks and may throw: the calls made, in
    order, and how evaluation ended. *)
Definition Run (A : Type) : Type := (list Call * Completion A)%type.

#[export] Instance Run_ret : MRet Run := fun A a => ([], Normal a).

#[export] Instance Run_bind : MBind Run := fun A B f m =>
  match m with
  | (calls, Normal a) => let '(calls', r) := f a in ((calls ++ calls')%list, r)
  | (calls, Throw e) => (calls, Throw e)
  end.

Definition eval {A : Type} (c : Completion A) : Run A := ([], c).

(** [callback(...args)]: calling what is not a function throws. *)
Definition invoke (callback : option Fn) (args : list Value) : Run unit :=
  match callback with
  | Some f => ([{| callee := f; arguments := args |}], Normal tt)
  | None => ([], Throw TypeError)
  end.

(** [l.forEach(body)] *)
Fixpoint forEach {A : Type} (l : list A) (body : A -> Run unit) : Run unit :=
  match l with
  | [] => mret tt
  | x :: rest => body x ≫= fun _ => forEach rest body
  end.

Section Client.
Context `{Runtime}.

(** [getPastEvents (eventName, emitter, conditions = {}, options)] *)
Definition getPastEvents (this : IceTeaWeb3)
    (eventName : string) (emitter : option string) (conditions : Conditions)
  : Completion IceTeaWeb3 :=
  searchTransactions this (getPastEvents_query eventName emitter conditions).

(** [subscribe (eventName, conditions = {}, callback)] up to and including
    the call [this.rpc.call('subscribe', { 'query': query })]: the client
    afterwards, and the closure of the [then] callback that awaits the
    response. *)
Definition subscribe (this : IceTeaWeb3)
    (eventName : string) (conditions : Conditions) (callback : option Fn)
  : Completion (IceTeaWeb3 * Closure.t) :=
  if negb (isWebSocket this) then Throw (Err "subscribe for WebSocket only") else
  let conditions := default_conditions conditions in
  let isSystemEvent := mem eventName systemEvent in
  let nonSystemEventName := if isSystemEvent then None else Some eventName in
  let count :=
    if isSystemEvent then countSubscribeEvent this
    else countSubscribeEvent this + 1 in
  let eventName := if isSystemEvent then eventName else "Tx" in
  let space := spaces count in
  let '(query, callback) :=
    match conditions with
    | CondString s => (s, callback)
    | _ =>
        let '(callback, conditions) :=
          match conditions, callback with
          | CondFunction f, None => (Some f, CondObject [])
          | _, _ => (callback, conditions)
          end in
        (reduce_join ("tm.event = " +:+ space +:+ "'" +:+ eventName +:+ "'")
           (properties conditions),
         callback)
    end in
  let this := set_countSubscribeEvent this count in
  Normal
    (set_rpc this (call (rpc this) "subscribe" (Some query)),
     Closure.make isSystemEvent nonSystemEventName eventName query callback).

(** The record that the [then] callback of [subscribe] stores. *)
Definition subscription_of (c : Closure.t) (result : Result.t) : Subscription.t :=
  Subscription.make
    (Result.id result)
    (or_else (Closure.nonSystemEventName c) (Closure.eventName c))
    (Closure.query c).

(** The [then] callback of [subscribe], run when the request resolves to
    [result]. *)
Definition subscribe_then (this : IceTeaWeb3) (c : Closure.t) (result : Result.t)
  : IceTeaWeb3 :=
  let this :=
    set_subscriptions this
      (store_subscription (subscriptions this) (Result.id result)
         (subscription_of c result)) in
  set_rpc this
    (registerEventListener (rpc this) "onMessage" (SubscriptionListener c result)).

(** The envelope handed to the callback for one matching [event]. *)
Definition reshape (jsonrpc id : Value) (event : Object) (query : option string)
  : Value :=
  VObj [ ("jsonrpc", jsonrpc); ("id", id);
         ("result", VObj (assign event "query"
                            (from_option VStr VUndefined query))) ].

(** The body of the arrow function passed to [events.forEach]. *)
Definition route_event (subs : Registry) (c : Closure.t) (result : Result.t)
    (jsonMsg : Value) (event : Object) : Run unit :=
  let name := default VUndefined (own event "eventName") in
  if truthy name && strict_eq (Closure.nonSystemEventName c) name then
    jsonrpc ← eval (member jsonMsg "jsonrpc");
    id ← eval (member jsonMsg "id");
    query ← eval (query_of (lookup_subscription subs (Result.id result)));
    invoke (Closure.callback c)
      [VStr (JSON_stringify (reshape jsonrpc id event query)); VNull; VNum 2]
  else mret tt.

(** The [onMessage] handler that [subscribe] registers, run on [message]
    while the registry is [subs]. *)
Definition onMessage_handler (subs : Registry) (c : Closure.t) (result : Result.t)
    (message : string) : Run unit :=
  jsonMsg ← eval (match JSON_parse message with
                   | Some v => Normal v
                   | None => Throw SyntaxError
                   end);
  if String.eqb (Result.id result) "" then mret tt else
  id ← eval (member jsonMsg "id");
  found ← eval (indexOf_found id (Result.id result));
  if negb found then mret tt else
  if Closure.isSystemEvent c then invoke (Closure.callback c) [VStr message]
  else
    payload ← eval (member jsonMsg "result");
    forEach (decodeEventData payload) (route_event subs c result jsonMsg).

(** What [unsubscribe] returns: the promise of the request it sent, whose
    [then] callback awaits the response, or a promise already rejected. *)
Inductive Unsubscribing : Type :=
| Awaiting (subscriptionId : string)
| RejectedWith (e : Error).

Definition NotSubscribed (subscriptionId : string) : Error :=
  Err ("Error: Subscription with ID " +:+ subscriptionId +:+ " does not exist.").

(** [unsubscribe (subscriptionId)] up to its [return]. *)
Definition unsubscribe (this : IceTeaWeb3) (subscriptionId : string)
  : Completion (IceTeaWeb3 * Unsubscribing) :=
  if negb (isWebSocket this) then Throw (Err "unsubscribe for WebSocket only") else
  let slot := lookup_subscription (subscriptions this) subscriptionId in
  if defined slot then
    match query_of slot with
    | Normal q =>
        Normal (set_rpc this (call (rpc this) "unsubscribe" q),
                Awaiting subscriptionId)
    | Throw e => Throw e
    end
  else Normal (this, RejectedWith (NotSubscribed subscriptionId)).

(** The [then] callback of [unsubscribe], run when the request resolves. *)
Definition unsubscribe_then (this : IceTeaWeb3) (subscriptionId : string)
  : IceTeaWeb3 :=
  set_subscriptions this (delete_subscription (subscriptions this) subscriptionId).

(** The four methods that register a listener of the caller share their
    body, up to the name of the kind of listener. *)
Definition on (kind : Kind) (this : IceTeaWeb3) (callback : Fn)
  : Completion IceTeaWeb3 :=
  if negb (isWebSocket this)
  then Throw (Err (kind_name kind +:+ " for WebSocket only"))
  else Normal (set_rpc this
                 (registerEventListener (rpc this) (kind_name kind)
                    (UserListener callback))).

(** What a registered listener does with a message: the caller's function
    is called with it, the handler of a subscription routes it. *)
Definition notify (this : IceTeaWeb3) (l : Listener) (message : string) : Run unit :=
  match l with
  | UserListener callback => invoke (Some callback) [VStr message]
  | SubscriptionListener c result =>
      onMessage_handler (subscriptions this) c result message
  end.

Definition onMessage := on OnMessage.
Definition onResponse := on OnResponse.
Definition onError := on OnError.
Definition onClose := on OnClose.

End Client.

(** ** The client as a transition system

    Requests in flight are kept with the closure of the [then] callback
    that awaits them; the server settles them in any order. *)

Inductive InFlight : Type :=
| SubscribeRequest (c : Closure.t)
| UnsubscribeRequest (subscriptionId : string).

Record World : Type := { client : IceTeaWeb3; inflight : list InFlight }.

Inductive Action : Type :=
| CallSubscribe (eventName : string) (conditions : Conditions) (callback : option Fn)
| CallUnsubscribe (subscriptionId : string)
| CallGetPastEvents (eventName : string) (emitter : option string) (conditions : Conditions)
| CallOn (kind : Kind) (callback : Fn)
| CallClose
| Deliver (message : string)
| Resolve (k : nat) (result : Result.t)
| Reject (k : nat).

Definition boot (endpoint : string) : World :=
  {| client := constructor endpoint; inflight := [] |}.

(** Whether [a], taken in [w], is the resolution of an [unsubscribe]
    request for [subscriptionId]: the server's acknowledgement. *)
Definition acknowledges (subscriptionId : string) (w : World) (a : Action) : bool :=
  match a with
  | Resolve k _ =>
      match inflight w !! k with
      | Some (UnsubscribeRequest i) => String.eqb i subscriptionId
      | _ => false
      end
  | _ => false
  end.

Section Transitions.
Context `{Runtime}.

Definition settle (w : World) (k : nat) (result : Result.t) : World :=
  match inflight w !! k with
  | Some (SubscribeRequest c) =>
      {| client := subscribe_then (client w) c result;
         inflight := delete k (inflight w) |}
  | Some (UnsubscribeRequest subscriptionId) =>
      {| client := unsubscribe_then (client w) subscriptionId;
         inflight := delete k (inflight w) |}
  | None => w
  end.

(** One step.  A call that throws leaves the client as it was; a message
    reaches the listeners and changes nothing in the client. *)
Definition step (w : World) (a : Action) : World :=
  match a with
  | CallSubscribe eventName conditions callback =>
      match subscribe (client w) eventName conditions callback with
      | Normal (this, c) =>
          {| client := this; inflight := inflight w ++ [SubscribeRequest c] |}
      | Throw _ => w
      end
  | CallUnsubscribe subscriptionId =>
      match unsubscribe (client w) subscriptionId with
      | Normal (this, Awaiting i) =>
          {| client := this; inflight := inflight w ++ [UnsubscribeRequest i] |}
      | Normal (this, RejectedWith _) => {| client := this; inflight := inflight w |}
      | Throw _ => w
      end
  | CallGetPastEvents eventName emitter conditions =>
      match getPastEvents (client w) eventName emitter conditions with
      | Normal this => {| client := this; inflight := inflight w |}
      | Throw _ => w
      end
  | CallOn kind callback =>
      match on kind (client w) callback with
      | Normal this => {| client := this; inflight := inflight w |}
      | Throw _ => w
      end
  | CallClose => {| client := close (client w); inflight := inflight w |}
  | Deliver _ => w
  | Resolve k result => settle w k result
  | Reject k => {| client := client w; inflight := delete k (inflight w) |}
  end.

Definition run (w : World) (actions : list Action) : World :=
  fold_left step actions w.

End Transitions.

(** What a step can do to a world, for case analysis. *)
Inductive effect (w : World) : World -> Prop :=
| effect_none : effect w w
| effect_request this q m l :
    isWebSocket (client w) = isWebSocket this ->
    subscriptions this = subscriptions (client w) ->
    listeners (rpc this) = listeners (rpc (client w)) ->
    countSubscribeEvent (client w) <= countSubscribeEvent this ->
    sent (rpc this) = (sent (rpc (client w)) ++ [{| method := m; params_query := q |}])%list ->
    (isWebSocket (client w) = false -> l = inflight w) ->
    effect w {| client := this; inflight := l |}
| effect_listener kind callback :
    isWebSocket (client w) = true ->
    effect w
      {| client := set_rpc (client w)
                     (registerEventListener (rpc (client w)) (kind_name kind)
                        (UserListener callback));
         inflight := inflight w |}
| effect_close :
    effect w {| client := close (client w); inflight := inflight w |}
| effect_subscribed k c result :
    inflight w !! k = Some (SubscribeRequest c) ->
    effect w
      {| client := subscribe_then (client w) c result;
         inflight := delete k (inflight w) |}
| effect_unsubscribed k subscriptionId :
    inflight w !! k = Some (UnsubscribeRequest subscriptionId) ->
    effect w
      {| client := unsubscribe_then (client w) subscriptionId;
         inflight := delete k (inflight w) |}
| effect_rejected k :
    effect w {| client := client w; inflight := delete k (inflight w) |}.

(** ** A runtime to compute with

    [JSON.parse] and [JSON.stringify] on the fragment of JSON without
    fractions, exponents and unicode escapes (text outside the fragment is
    refused), [StringToNumber] on decimal integers, and a stand-in for
    [decodeEventData] that reads the events off a payload listing them
    under [events].  They serve the examples; the properties are proved
    for every runtime. *)

Module Sample.
#[local] Open Scope nat_scope.

Definition is_ws (c : ascii) : bool :=
  let n := nat_of_ascii c in
  (n =? 32) || (n =? 9) || (n =? 10) || (n =? 13).

Definition is_digit (c : ascii) : bool :=
  let n := nat_of_ascii c in (48 <=? n) && (n <=? 57).

Fixpoint skip_ws (s : string) : string :=
  match s with
  | String c rest => if is_ws c then skip_ws rest else s
  | EmptyString => s
  end.

(** Digits at the head of [s], read onto [acc]. *)
Fixpoint digits (s : string) (acc : Z) : Z * string :=
  match s with
  | String c rest =>
      if is_digit c
      then digits rest (10 * acc + Z.of_nat (nat_of_ascii c - 48))%Z
      else (acc, s)
  | EmptyString => (acc, s)
  end.

(** An integer literal: [0] or a digit sequence without a leading zero,
    not followed by a fraction or an exponent. *)
Definition natural (s : string) : option (Z * string) :=
  match s with
  | String c rest =>
      if is_digit c then
        let '(n, rest') :=
          if (nat_of_ascii c =? 48) then (0%Z, rest) else digits s 0 in
        match rest' with
        | String d _ =>
            if is_digit d || mem (String d "") ["."; "e"; "E"] then None
            else Some (n, rest')
        | EmptyString => Some (n, rest')
        end
      else None
  | EmptyString => None
  end.

(** The characters of a string literal after its opening quote. *)
Fixpoint chars (s : string) : option (string * string) :=
  match s with
  | EmptyString => None
  | String c rest =>
      if (nat_of_ascii c =? 34) then Some ("", rest)
      else if (nat_of_ascii c <? 32) then None
      else if (nat_of_ascii c =? 92) then
        match rest with
        | String e rest' =>
            let unescaped :=
              match nat_of_ascii e with
              | 34 => Some "034"%char
              | 92 => Some "092"%char
              | 47 => Some "047"%char
              | 98 => Some "008"%char
              | 102 => Some "012"%char
              | 110 => Some "010"%char
              | 114 => Some "013"%char
              | 116 => Some "009"%char
              | _ => None
              end in
            match unescaped, chars rest' with
            | Some u, Some (body, after) => Some (String u body, after)
            | _, _ => None
            end
        | EmptyString => None
        end
      else
        match chars rest with
        | Some (body, after) => Some (String c body, after)
        | None => None
        end
  end.

Definition literal (word : string) (v : Value) (s : string) : option (Value * string) :=
  if String.prefix word s
  then Some (v, String.substring (String.length word) (String.length s) s)
  else None.

(** The elements of a non-empty array, up to the closing bracket. *)
Fixpoint elements (value : string -> option (Value * string)) (fuel : nat)
    (acc : list Value) (s : string) : option (Value * string) :=
  match fuel with
  | O => None
  | S fuel =>
      match value s with
      | Some (v, rest) =>
          match skip_ws rest with
          | String "," rest' => elements value fuel (acc ++ [v]) rest'
          | String "]" rest' => Some (VArr (acc ++ [v]), rest')
          | _ => None
          end
      | None => None
      end
  end.

(** The members of an object, up to the closing brace; a repeated name
    keeps its place and takes the later value. *)
Fixpoint members (value : string -> option (Value * string)) (fuel : nat)
    (acc : Object) (s : string) : option (Value * string) :=
  match fuel with
  | O => None
  | S fuel =>
      match skip_ws s with
      | String q rest =>
          if negb (nat_of_ascii q =? 34) then None else
          match chars rest with
          | Some (name, rest) =>
              match skip_ws rest with
              | String ":" rest =>
                  match value rest with
                  | Some (v, rest) =>
                      match skip_ws rest with
                      | String "," rest' => members value fuel (assign acc name v) rest'
                      | String "}" rest' => Some (VObj (assign acc name v), rest')
                      | _ => None
                      end
                  | None => None
                  end
              | _ => None
              end
          | None => None
          end
      | EmptyString => None
      end
  end.

Fixpoint value (fuel : nat) (s : string) : option (Value * string) :=
  match fuel with
  | O => None
  | S fuel =>
      match skip_ws s with
      | EmptyString => None
      | String c rest as s' =>
          match nat_of_ascii c with
          | 34 => (* a string *)
              match chars rest with
              | Some (body, after) => Some (VStr body, after)
              | None => None
              end
          | 91 => (* [ *)
              match skip_ws rest with
              | String "]" after => Some (VArr [], after)
              | _ => elements (value fuel) (String.length rest) [] rest
              end
          | 123 => (* { *)
              match skip_ws rest with
              | String "}" after => Some (VObj [], after)
              | _ => members (value fuel) (String.length rest) [] rest
              end
          | 45 => (* - *)
              match natural rest with
              | Some (n, after) => Some (VNum (- n), after)
              | None => None
              end
          | 116 => literal "true" (VBool true) s'
          | 102 => literal "false" (VBool false) s'
          | 110 => literal "null" VNull s'
          | _ =>
              match natural s' with
              | Some (n, after) => Some (VNum n, after)
              | None => None
              end
          end
      end
  end.

(** [JSON.parse]: one value, with nothing but white space around it. *)
Definition parse (text : string) : option Value :=
  match value (S (String.length text)) text with
  | Some (v, rest) =>
      match skip_ws rest with
      | EmptyString => Some v
      | _ => None
      end
  | None => None
  end.

Definition hex_digit (n : nat) : ascii :=
  ascii_of_nat (if n <? 10 then 48 + n else 87 + n).

(** A string literal, with the escapes [JSON.stringify] writes. *)
Fixpoint escape (s : string) : string :=
  match s with
  | EmptyString => ""
  | String c rest =>
      let n := nat_of_ascii c in
      (match n with
       | 34 => String "092" (String "034" "")
       | 92 => String "092" (String "092" "")
       | 8 => String "092" "b"
       | 12 => String "092" "f"
       | 10 => String "092" "n"
       | 13 => String "092" "r"
       | 9 => String "092" "t"
       | _ =>
           if n <? 32
           then String "092" "u00"
                +:+ String (hex_digit (n / 16)) (String (hex_digit (n mod 16)) "")
           else String c ""
       end) +:+ escape rest
  end.

Definition quoted (s : string) : string := dquote +:+ escape s +:+ dquote.

(** [JSON.stringify] of a value other than [undefined]: a property whose
    value is [undefined] is left out, an array element that is
    [undefined] is written [null]. *)
Fixpoint stringify (v : Value) : string :=
  match v with
  | VUndefined | VNull => "null"
  | VBool true => "true"
  | VBool false => "false"
  | VNum n => pretty n
  | VStr s => quoted s
  | VArr elems => "[" +:+ String.concat "," (map stringify elems) +:+ "]"
  | VObj fields =>
      "{" +:+
      String.concat ","
        ((fix each (fs : list (string * Value)) : list string :=
            match fs with
            | [] => []
            | (_, VUndefined) :: rest => each rest
            | (k, v) :: rest => (quoted k +:+ ":" +:+ stringify v) :: each rest
            end) fields)
      +:+ "}"
  end.

(** Decimal integers, with an optional sign; the empty string is [0]. *)
Definition to_number (s : string) : option Z :=
  match s with
  | EmptyString => Some 0%Z
  | String c rest =>
      let '(sign, body) :=
        if (nat_of_ascii c =? 45) then ((-1)%Z, rest)
        else if (nat_of_ascii c =? 43) then (1%Z, rest)
        else (1%Z, s) in
      match body with
      | EmptyString => None
      | String d _ =>
          if is_digit d then
            match digits body 0 with
            | (n, EmptyString) => Some (sign * n)%Z
            | _ => None
            end
          else None
      end
  end.

(** Stand-in for [decodeEventData]: the objects listed under [events]. *)
Definition events_of (payload : Value) : list Object :=
  match payload with
  | VObj fields =>
      match own fields "events" with
      | Some (VArr elems) =>
          flat_map (fun e => match e with VObj o => [o] | _ => [] end) elems
      | _ => []
      end
  | _ => []
  end.

#[export] Instance runtime : Runtime := {|
  JSON_parse := parse;
  JSON_stringify := stringify;
  StringToNumber := to_number;
  decodeEventData := events_of
|}.

(** A node's WebSocket endpoint, a condition mapping, and the push message
    of a transaction that raised two events. *)
Definition endpoint : string := "ws://localhost:26657/websocket".

Definition conditions : list (string * Scalar) :=
  [ ("fromBlock", SNum 5); ("toBlock", SNum 10); ("owner", SStr "alice") ].

Definition envelope : Value :=
  VObj [ ("jsonrpc", VStr "2.0");
         ("id", VStr "0.42#event");
         ("result",
          VObj [ ("events",
                  VArr [ VObj [ ("eventName", VStr "Transferred");
                                ("emitter", VStr "teat1") ];
                         VObj [ ("eventName", VStr "Other") ] ]) ]) ].

Definition message : string := stringify envelope.

(** A client that has subscribed to [Transferred] with callback [7], the
    request resolved to the id [answer]. *)
Definition subscribed (answer : string) : World :=
  run (boot endpoint)
    [ CallSubscribe "Transferred" CondMissing (Some 7);
      Resolve 0 (Result.make answer) ].

(** The closure of that subscription. *)
Definition transferred : Closure.t :=
  Closure.make false (Some "Transferred") "Tx" "tm.event =  'Tx'" (Some 7).

End Sample.

(** ** The specification's wording, as definitions to compare with *)



(** The seed clause of a historical query as the specification words it:
    the token [<emitterScope>.<eventName>|]. *)
Definition spec_seed (emitterScope eventName : string) : string :=
  "EventNames CONTAINS '" +:+ emitterScope +:+ "." +:+ eventName +:+ "|'".

(** ** Definitions the statements use *)




(** [n] space characters. *)
Definition whitespace (n : nat) : string :=
  string_of_list_ascii (repeat " "%char n).

(** What follows the seed clause in a joined query. *)
Definition and_tail (clauses : list string) : string :=
  foldr (fun x acc => " AND " +:+ x +:+ acc) "" clauses.

(** Whether an event record carries the name [name]. *)
Definition named (name : string) (event : Object) : bool :=
  strict_eq_string name (default VUndefined (own event "eventName")).

(** An own entry of the registry is never stored under [__proto__]. *)
Definition well_formed (subs : Registry) : Prop :=
  entries subs !! "__proto__" = None.

(** What every reachable world satisfies. *)
Definition invariant (w : World) : Prop :=
  well_formed (subscriptions (client w))
  /\ (isWebSocket (client w) = false ->
      subscriptions (client w) = empty_registry /\ inflight w = []
      /\ listeners (rpc (client w)) = []).

(** ** Runs of the client: what they count and keep *)

(** Whether an action is a [subscribe] call for an event name that is not
    a system event. *)
Definition non_system_subscribe (a : Action) : bool :=
  match a with
  | CallSubscribe eventName _ _ => negb (mem eventName systemEvent)
  | _ => false
  end.

(** A client that has done nothing but search. *)
Definition inert (w : World) : Prop :=
  isWebSocket (client w) = false
  /\ subscriptions (client w) = empty_registry
  /\ listeners (rpc (client w)) = []
  /\ inflight w = []
  /\ countSubscribeEvent (client w) = 0
  /\ closed (rpc (client w)) = false
  /\ Forall (fun r => method r = "tx_search") (sent (rpc (client w))).

(** The record [s] under the key [k] is the one a registered listener's
    subscription stored there. *)
Definition backed (this : IceTeaWeb3) (k : string) (s : Subscription.t) : Prop :=
  Subscription.id s = k
  /\ Subscription.subscribeMethod s <> ""
  /\ exists c result,
       In ("onMessage", SubscriptionListener c result) (listeners (rpc this))
       /\ s = subscription_of c result.

(** The method that the [then] callback of a pending [subscribe] will
    record is not empty. *)
Definition names_a_method (r : InFlight) : Prop :=
  match r with
  | SubscribeRequest c =>
      or_else (Closure.nonSystemEventName c) (Closure.eventName c) <> ""
  | UnsubscribeRequest _ => True
  end.

(** Every record of the registry is backed by a listener, and every
    pending [subscribe] names a method. *)
Definition consistent (w : World) : Prop :=
  (forall k s, entries (subscriptions (client w)) !! k = Some s ->
               backed (client w) k s)
  /\ (forall s, proto (subscriptions (client w)) = Some s ->
                backed (client w) "__proto__" s)
  /\ Forall names_a_method (inflight w).

(** ** Transactions: [sendTransactionCommit], [deploy], [_serializeData] *)

(** The [src] argument of [deploy]: a string, a Buffer (its bytes), or
    any other value. *)
Inductive Source : Type :=
| SourceString (s : string)
| SourceBuffer (bytes : string)
| SourceOther (v : Value).

Module TxData.
(** [txData]: what [_serializeData] puts under [data]. *)
Record t : Type := make {
  op : Z;
  mode : Z;
  params : list Value;
  src : string
}.
End TxData.

Module Tx.
(** A transaction object, of which the client reads [from]; [formData],
    which [_serializeData] returns, is one with [value], [fee] and [data]
    only. *)
Record t : Type := make {
  from : option string;
  to : option string;
  value : Value;
  fee : Value;
  data : option TxData.t
}.
End Tx.

Module Options.
(** The [options] argument of [deploy], of which [from], [value] and
    [fee] are read. *)
Record t : Type := make {
  from : option string;
  value : Value;
  fee : Value
}.
End Options.

(** What the transaction methods take from icetea-common, ./utils,
    ./wallet/Wallet and the runtime: the constants [TxOp.DEPLOY_CONTRACT],
    [ContractMode.JS_RAW] and [ContractMode.JS_DECORATED],
    [switchEncoding] (which may throw), [signTransaction], the wallet's
    [getPrivateKeyByAddress] ([None] for undefined, as argument and as
    result), and [Buffer.toString('base64')]: [toString] of the
    constructor [Buffer], which is [Function.prototype.toString] and
    yields the text of that function whatever it is given. *)
Class Chain : Type := {
  DEPLOY_CONTRACT : Z;
  JS_RAW : Z;
  JS_DECORATED : Z;
  switchEncoding : Source -> string -> string -> Completion string;
  signTransaction : Tx.t -> string -> Value;
  getPrivateKeyByAddress : option string -> option string;
  Buffer_toString : string
}.

(** A request handed to [rpc.send(method, signed)]. *)
Record Broadcast : Type := { broadcast_method : string; signed : Value }.

(** [!privateKey] *)
Definition no_key (privateKey : option string) : bool :=
  match privateKey with
  | Some k => String.eqb k ""
  | None => true
  end.

(** [v || 0] *)
Definition or_zero (v : Value) : Value := if truthy v then v else VNum 0.

Section Transactions.
Context `{Chain}.

(** [_serializeData (mode, src, params, options)] *)
Definition _serializeData (mode : Z) (src : Source) (params : list Value)
    (options : Options.t) : Completion Tx.t :=
  let finish (text : string) :=
    Normal (Tx.make None None
              (or_zero (Options.value options))
              (or_zero (Options.fee options))
              (Some (TxData.make DEPLOY_CONTRACT mode params text))) in
  if (mode =? JS_DECORATED)%Z || (mode =? JS_RAW)%Z then
    match switchEncoding src "utf8" "base64" with
    | Normal text => finish text
    | Throw e => Throw e
    end
  else
    match src with
    | SourceBuffer _ => finish Buffer_toString
    | SourceString s => finish s
    | SourceOther _ =>
        Throw (Err "Wasm binary must be in form of Buffer or base64-encoded string.")
    end.

(** The three [sendTransaction] methods share their body, up to the
    method of the request. *)
Definition sendTransaction (m : string) (tx : Tx.t) : Completion Broadcast :=
  let privateKey := getPrivateKeyByAddress (Tx.from tx) in
  if no_key privateKey
  then Throw (Err "Send transaction is failed because privateKey empty")
  else Normal {| broadcast_method := m;
                 signed := signTransaction tx (default "" privateKey) |}.

Definition sendTransactionAsync := sendTransaction "broadcast_tx_async".
Definition sendTransactionSync := sendTransaction "broadcast_tx_sync".
Definition sendTransactionCommit := sendTransaction "broadcast_tx_commit".

(** [deploy (mode, src, params = [], options = {})] up to the request it
    sends: [sendTransactionCommit] takes one argument, the second is
    dropped. *)
Definition deploy (mode : Z) (src : Source) (params : list Value)
    (options : Options.t) : Completion Broadcast :=
  match _serializeData mode src params options with
  | Throw e => Throw e
  | Normal tx =>
      let privateKey := getPrivateKeyByAddress (Options.from options) in
      if no_key privateKey
      then Throw (Err "Deploy is failed because privateKey empty")
      else sendTransactionCommit tx
  end.

End Transactions.

Module SampleChain.

(** Constants, an encoder that marks its output with the target
    encoding, a signer that pairs transaction value and key, and a wallet
    with a key for [teat1alice] and a default key. *)
#[export] Instance chain : Chain := {|
  DEPLOY_CONTRACT := 0;
  JS_RAW := 0;
  JS_DECORATED := 1;
  switchEncoding := fun src _ target =>
    match src with
    | SourceString s => Normal (target +:+ ":" +:+ s)
    | SourceBuffer b => Normal (target +:+ ":" +:+ b)
    | SourceOther _ => Throw TypeError
    end;
  signTransaction := fun tx key => VArr [Tx.value tx; VStr key];
  getPrivateKeyByAddress := fun address =>
    match address with
    | None => Some "default-key"
    | Some a => if String.eqb a "teat1alice" then Some "alice-key" else None
    end;
  Buffer_toString := "function Buffer(arg, encodingOrOffset, length) { }"
|}.

Definition options : Options.t :=
  Options.make (Some "teat1alice") (VNum 5) VUndefined.

End SampleChain.

(** ** Properties of the query builder *)

Lemma append_assoc (a b c : string) : (a +:+ b) +:+ c = a +:+ (b +:+ c).
Proof.
  induction a as [|x a IH]; [reflexivity|].
  change (String x ((a +:+ b) +:+ c) = String x (a +:+ b +:+ c)).
  by rewrite IH.
Qed.

Lemma append_empty_r (a : string) : a +:+ "" = a.
Proof.
  induction a as [|x a IH]; [reflexivity|].
  change (String x (a +:+ "") = String x a). by rewrite IH.
Qed.

Lemma fold_push {A B : Type} (f : B -> A) (l : list B) (init : list A) :
  fold_left (fun arr k => (arr ++ [f k])%list) l init = (init ++ map f l)%list.
Proof.
  revert init. induction l as [|k l IH]; intros init; simpl.
  - by rewrite app_nil_r.
  - rewrite IH, <- app_assoc. reflexivity.
Qed.

Lemma concat_seed (seed : string) (clauses : list string) :
  String.concat " AND " (seed :: clauses) = seed +:+ and_tail clauses.
Proof.
  revert seed. induction clauses as [|x l IH]; intros seed.
  - simpl. by rewrite append_empty_r.
  - change (String.concat " AND " (seed :: x :: l))
      with (seed +:+ " AND " +:+ String.concat " AND " (x :: l)).
    rewrite IH. simpl and_tail. reflexivity.
Qed.

Section QueryBuilderFacts.
Context `{Runtime}.

Lemma reduce_join_clauses (seed : string) (o : list (string * Scalar)) :
  reduce_join seed o
  = String.concat " AND " (seed :: map (clause o) (Object_keys o)).
Proof. unfold reduce_join. by rewrite fold_push. Qed.







Lemma subscribe_websocket_only this eventName conditions callback :
  isWebSocket this = false ->
  subscribe this eventName conditions callback
  = Throw (Err "subscribe for WebSocket only").
Proof. intros Hws. unfold subscribe. by rewrite Hws. Qed.

(** The query of a [subscribe] call whose conditions are not a string. *)
Lemma subscribe_structured this eventName conditions callback :
  isWebSocket this = true ->
  (forall s, conditions <> CondString s) ->
  let system := mem eventName systemEvent in
  let count := if system then countSubscribeEvent this
               else countSubscribeEvent this + 1 in
  let name := if system then eventName else "Tx" in
  let query :=
    reduce_join ("tm.event = " +:+ spaces count +:+ "'" +:+ name +:+ "'")
      (properties (default_conditions conditions)) in
  subscribe this eventName conditions callback
  = Normal
      (set_rpc (set_countSubscribeEvent this count)
         (call (rpc this) "subscribe" (Some query)),
       Closure.make system (if system then None else Some eventName) name query
         (match conditions, callback with
          | CondFunction f, None => Some f
          | _, _ => callback
          end)).
Proof.
  intros Hws Hns. cbv zeta. unfold subscribe. rewrite Hws.
  destruct conditions as [| s | o | f]; [ | by destruct (Hns s) | | ];
    destruct callback; reflexivity.
Qed.

End QueryBuilderFacts.

Section QueryBuilderClaims.
Context `{Runtime}.


(** C6, as amended.  In [getPastEvents] with structured conditions the
    query starts with the seed clause [EventNames CONTAINS '<token>'], and
    the token is [<emitterScope><eventName>|] with no character between
    the scope and the event name: [.<eventName>|] when no emitter is
    given (or the empty string is), [|<emitter>.<eventName>|] when one
    is. *)
Theorem past_events_seed_clause
    (eventName : string) (o : list (string * Scalar)) :
  getPastEvents_query eventName None (CondObject o)
  = "EventNames CONTAINS '" +:+ ("." +:+ eventName +:+ "|") +:+ "'"
    +:+ and_tail (map (clause o) (Object_keys o))
  /\ getPastEvents_query eventName (Some "") (CondObject o)
     = getPastEvents_query eventName None (CondObject o)
  /\ (forall emitter, emitter <> "" ->
      getPastEvents_query eventName (Some emitter) (CondObject o)
      = "EventNames CONTAINS '"
        +:+ (("|" +:+ emitter +:+ ".") +:+ eventName +:+ "|") +:+ "'"
        +:+ and_tail (map (clause o) (Object_keys o))).
Proof.
  split; [|split; [reflexivity|]].
  - unfold getPastEvents_query. simpl default_conditions. cbv iota.
    rewrite reduce_join_clauses, concat_seed. simpl properties.
    rewrite !append_assoc. reflexivity.
  - intros emitter Hne. unfold getPastEvents_query. simpl default_conditions.
    cbv iota. rewrite reduce_join_clauses, concat_seed. simpl properties.
    unfold emitter_scope. apply String.eqb_neq in Hne. rewrite Hne.
    rewrite !append_assoc. reflexivity.
Qed.

(** C9.  Over a WebSocket transport, [subscribe] called with a function
    as [conditions] and no [callback] takes that function as the callback
    and builds the query from an empty condition mapping: the query is
    the seed tag clause alone. *)
Theorem function_conditions_is_the_callback
    (this : IceTeaWeb3) (eventName : string) (f : Fn) :
  isWebSocket this = true ->
  exists this' c,
    subscribe this eventName (CondFunction f) None = Normal (this', c)
    /\ Closure.callback c = Some f
    /\ Closure.eventName c = (if mem eventName systemEvent then eventName else "Tx")
    /\ Closure.query c
       = "tm.event = " +:+ spaces (countSubscribeEvent this') +:+ "'"
         +:+ Closure.eventName c +:+ "'"
    /\ sent (rpc this')
       = (sent (rpc this)
          ++ [{| method := "subscribe"; params_query := Some (Closure.query c) |}])%list.
Proof.
  intros Hws. eexists _, _. split.
  - apply subscribe_structured; [exact Hws | done].
  - simpl. repeat split.
Qed.

End QueryBuilderClaims.

(** ** Properties of the transition system *)

Section TransitionFacts.
Context `{Runtime}.

Lemma subscribe_normal this eventName conditions callback this' c :
  subscribe this eventName conditions callback = Normal (this', c) ->
  isWebSocket this = true
  /\ exists count q,
       this' = set_rpc (set_countSubscribeEvent this count)
                 (call (rpc this) "subscribe" (Some q))
       /\ countSubscribeEvent this <= count.
Proof.
  unfold subscribe. destruct (isWebSocket this); [|done]. intros Hsub.
  split; [done|].
  destruct (mem eventName systemEvent);
    destruct conditions as [| s | o | f]; destruct callback;
    simpl in Hsub; injection Hsub as <- <-; eexists _, _;
    (split; [reflexivity | lia]).
Qed.

Lemma unsubscribe_normal this subscriptionId this' u :
  unsubscribe this subscriptionId = Normal (this', u) ->
  isWebSocket this = true
  /\ ((this' = this /\ u = RejectedWith (NotSubscribed subscriptionId)
       /\ lookup_subscription (subscriptions this) subscriptionId = Absent)
      \/ (exists q, this' = set_rpc this (call (rpc this) "unsubscribe" q)
          /\ query_of (lookup_subscription (subscriptions this) subscriptionId)
             = Normal q
          /\ u = Awaiting subscriptionId)).
Proof.
  unfold unsubscribe. destruct (isWebSocket this); [|done]. simpl.
  destruct (lookup_subscription (subscriptions this) subscriptionId);
    simpl; intros [= <- <-]; (split; [done|]); eauto 6.
Qed.

Lemma searchTransactions_normal this query this' :
  searchTransactions this query = Normal this' ->
  this' = set_rpc this (call (rpc this) "tx_search" (Some query)).
Proof.
  unfold searchTransactions. destruct (String.eqb query ""); [done|].
  by intros [= <-].
Qed.

Lemma on_normal kind this callback this' :
  on kind this callback = Normal this' ->
  isWebSocket this = true
  /\ this' = set_rpc this
               (registerEventListener (rpc this) (kind_name kind)
                  (UserListener callback)).
Proof.
  unfold on. destruct (isWebSocket this); [|done]. by intros [= <-].
Qed.

Lemma step_effect (w : World) (a : Action) : effect w (step w a).
Proof.
  destruct w as [this fl].
  destruct a as [e c cb | i | e em c | kind cb | | m | k r | k]; simpl.
  - destruct (subscribe this e c cb) as [[this' cl]|] eqn:Hsub; [|constructor].
    apply subscribe_normal in Hsub as (Hws & count & q & -> & Hle).
    eapply effect_request; simpl; eauto; intros; simpl in *; congruence.
  - destruct (unsubscribe this i) as [[this' u]|] eqn:Hun; [|constructor].
    apply unsubscribe_normal in Hun as (Hws & [(-> & -> & _) | (q & -> & _ & ->)]).
    + constructor.
    + eapply effect_request; simpl; eauto; intros; simpl in *; congruence.
  - destruct (getPastEvents this e em c) as [this'|] eqn:Hget; [|constructor].
    apply searchTransactions_normal in Hget as ->.
    eapply effect_request; simpl; eauto; intros; simpl in *; congruence.
  - destruct (on kind this cb) as [this'|] eqn:Hon; [|constructor].
    apply on_normal in Hon as (Hws & ->).
    by apply (effect_listener {| client := this; inflight := fl |}).
  - apply (effect_close {| client := this; inflight := fl |}).
  - constructor.
  - unfold settle. simpl.
    destruct (fl !! k) as [[c | i]|] eqn:Hk.
    + by apply (effect_subscribed {| client := this; inflight := fl |}).
    + by apply (effect_unsubscribed {| client := this; inflight := fl |}).
    + constructor.
  - apply (effect_rejected {| client := this; inflight := fl |}).
Qed.

Lemma close_fields this :
  isWebSocket (close this) = isWebSocket this
  /\ subscriptions (close this) = subscriptions this
  /\ listeners (rpc (close this)) = listeners (rpc this)
  /\ countSubscribeEvent (close this) = countSubscribeEvent this.
Proof. unfold close. destruct (isWebSocket this) eqn:E; simpl; by rewrite ?E. Qed.

Lemma step_isWebSocket w a :
  isWebSocket (client (step w a)) = isWebSocket (client w).
Proof.
  destruct (step_effect w a); simpl; try done.
  apply close_fields.
Qed.

Lemma step_count w a :
  countSubscribeEvent (client w) <= countSubscribeEvent (client (step w a)).
Proof.
  destruct (step_effect w a); simpl; try done.
  by rewrite (proj2 (proj2 (proj2 (close_fields _)))).
Qed.

Lemma step_listeners w a :
  listeners (rpc (client w)) `prefix_of` listeners (rpc (client (step w a))).
Proof.
  destruct (step_effect w a) as [| ? ? ? ? ? ? Hl | | | | |]; simpl; try done.
  - by rewrite Hl.
  - by apply prefix_app_r.
  - by rewrite (proj1 (proj2 (proj2 (close_fields _)))).
  - by apply prefix_app_r.
Qed.

Lemma run_snoc w actions a : run w (actions ++ [a]) = step (run w actions) a.
Proof. unfold run. by rewrite fold_left_app. Qed.

Lemma run_isWebSocket w actions :
  isWebSocket (client (run w actions)) = isWebSocket (client w).
Proof.
  induction actions as [|a actions IH] using rev_ind; [done|].
  by rewrite run_snoc, step_isWebSocket.
Qed.

Lemma run_count w actions :
  countSubscribeEvent (client w) <= countSubscribeEvent (client (run w actions)).
Proof.
  induction actions as [|a actions IH] using rev_ind; [done|].
  rewrite run_snoc. etrans; [exact IH | apply step_count].
Qed.

Lemma run_listeners w actions :
  listeners (rpc (client w)) `prefix_of` listeners (rpc (client (run w actions))).
Proof.
  induction actions as [|a actions IH] using rev_ind; [done|].
  rewrite run_snoc. etrans; [exact IH | apply step_listeners].
Qed.

End TransitionFacts.

(** ** Properties of the registry *)

Lemma lookup_store_eq subs k s :
  well_formed subs ->
  lookup_subscription (store_subscription subs k s) k = Entry s.
Proof.
  unfold well_formed, lookup_subscription, store_subscription. intros Hwf.
  destruct (String.eqb_spec k "__proto__") as [-> | Hne]; simpl.
  - by rewrite Hwf.
  - by rewrite lookup_insert_eq.
Qed.

Lemma lookup_store_other subs k s k' s' :
  lookup_subscription subs k = Entry s -> k <> k' ->
  lookup_subscription (store_subscription subs k' s') k = Entry s.
Proof.
  unfold lookup_subscription, store_subscription. intros Hk Hne.
  destruct (String.eqb_spec k' "__proto__") as [-> | Hne']; simpl.
  - destruct (entries subs !! k); [done|].
    apply String.eqb_neq in Hne. rewrite Hne in *.
    by repeat case_match.
  - rewrite lookup_insert_ne by done.
    destruct (entries subs !! k); [done|].
    by repeat case_match.
Qed.

Lemma lookup_delete_other subs k k' :
  k <> k' ->
  lookup_subscription (delete_subscription subs k') k = lookup_subscription subs k.
Proof.
  unfold lookup_subscription, delete_subscription. intros Hne. simpl.
  by rewrite lookup_delete_ne.
Qed.

Lemma lookup_delete_eq_own subs k s :
  k <> "__proto__" ->
  lookup_subscription (delete_subscription subs k) k <> Entry s.
Proof.
  unfold lookup_subscription, delete_subscription. intros Hne. simpl.
  rewrite (lookup_delete_eq (M := gmap string)).
  apply String.eqb_neq in Hne. rewrite Hne. by repeat case_match.
Qed.

Lemma well_formed_store subs k s :
  well_formed subs -> well_formed (store_subscription subs k s).
Proof.
  unfold well_formed, store_subscription. intros Hwf.
  destruct (String.eqb_spec k "__proto__") as [-> | Hne]; simpl; [done|].
  by rewrite lookup_insert_ne.
Qed.

Lemma well_formed_delete subs k :
  well_formed subs -> well_formed (delete_subscription subs k).
Proof.
  unfold well_formed, delete_subscription. intros Hwf. simpl.
  destruct (decide (k = "__proto__")) as [-> | Hne].
  - by rewrite lookup_delete_eq.
  - by rewrite lookup_delete_ne.
Qed.

(** A read yields [undefined] exactly when the key is neither an own
    property nor a name found on the prototype chain. *)
Lemma lookup_absent subs k :
  lookup_subscription subs k = Absent
  <-> entries subs !! k = None
      /\ mem k Object_prototype = false
      /\ (proto subs = None \/ mem k record_fields = false).
Proof.
  unfold lookup_subscription.
  destruct (entries subs !! k); [by split; [|intros (? & _)]|].
  destruct (String.eqb_spec k "__proto__") as [-> | Hne].
  { destruct (proto subs); by split; [|intros (_ & ? & _)]. }
  destruct (proto subs) as [p|]; simpl.
  - destruct (mem k record_fields); simpl.
    + split; [done|]. by intros (_ & _ & [? | ?]).
    + destruct (mem k Object_prototype); split; try done; [by intros (_ & ? & _) | eauto].
  - destruct (mem k Object_prototype); split; try done; [by intros (_ & ? & _) | eauto].
Qed.

Section Invariant.
Context `{Runtime}.

Lemma invariant_boot endpoint : invariant (boot endpoint).
Proof. by split. Qed.

Lemma invariant_step w a : invariant w -> invariant (step w a).
Proof.
  intros [Hwf Hhttp].
  destruct (step_effect w a)
    as [| this q m l Hws Hsubs Hl _ _ Hfl | kind cb Hws | | k c r Hk | k i Hk | k];
    simpl.
  - by split.
  - split; simpl; [by rewrite Hsubs|]. rewrite Hsubs, Hl, <- Hws.
    intros Hfalse. rewrite (Hfl Hfalse). by apply Hhttp.
  - split; simpl; [done|]. intros Hfalse. by rewrite Hfalse in Hws.
  - unfold invariant. simpl.
    destruct (close_fields (client w)) as (-> & -> & -> & _). by split.
  - split; simpl; [by apply well_formed_store|].
    intros Hfalse. destruct (Hhttp Hfalse) as (_ & Hnil & _).
    by rewrite Hnil in Hk.
  - split; simpl; [by apply well_formed_delete|].
    intros Hfalse. destruct (Hhttp Hfalse) as (_ & Hnil & _).
    by rewrite Hnil in Hk.
  - split; simpl; [done|]. intros Hfalse.
    destruct (Hhttp Hfalse) as (-> & -> & ->). by destruct k.
Qed.

Lemma invariant_run w actions : invariant w -> invariant (run w actions).
Proof.
  intros Hw. induction actions as [|a actions IH] using rev_ind; [done|].
  rewrite run_snoc. by apply invariant_step.
Qed.

(** After any run from a fresh client, a registered subscription means
    the transport is a WebSocket. *)
Lemma registered_over_websocket endpoint actions k s :
  lookup_subscription (subscriptions (client (run (boot endpoint) actions))) k
  = Entry s ->
  isWebSocket (client (run (boot endpoint) actions)) = true.
Proof.
  intros Hk.
  destruct (invariant_run _ actions (invariant_boot endpoint)) as [_ Hhttp].
  destruct (isWebSocket _); [done|].
  destruct (Hhttp eq_refl) as (Hempty & _). rewrite Hempty in Hk.
  unfold lookup_subscription in Hk. simpl in Hk.
  rewrite lookup_empty in Hk. by repeat case_match.
Qed.

End Invariant.

(** ** The subscribe counter *)

Lemma length_append (a b : string) :
  String.length (a +:+ b) = String.length a + String.length b.
Proof.
  induction a as [|x a IH]; [reflexivity|].
  change (S (String.length (a +:+ b)) = S (String.length a + String.length b)).
  by rewrite IH.
Qed.

Lemma whitespace_snoc n : whitespace n +:+ " " = whitespace (S n).
Proof.
  induction n as [|n IH]; [reflexivity|].
  change (String " " (whitespace n +:+ " ") = String " " (whitespace (S n))).
  by rewrite IH.
Qed.

(** The loop that builds [space] leaves as many spaces as the counter says. *)
Lemma spaces_whitespace n : spaces n = whitespace n.
Proof.
  induction n as [|n IH]; [reflexivity|].
  simpl spaces. by rewrite IH, whitespace_snoc.
Qed.

Lemma whitespace_length n : String.length (whitespace n) = n.
Proof.
  induction n as [|n IH]; [reflexivity|].
  change (S (String.length (whitespace n)) = S n). by rewrite IH.
Qed.

Section CounterClaims.
Context `{Runtime}.

(** C2, as amended.  Over a WebSocket transport, [subscribe] with a
    non-system event name and conditions that are not a string increments
    the client's counter, and the query it builds starts with the tag
    comparison [tm.event = ] followed by exactly counter-many space
    characters before ['Tx'].  A later subscription to the same event
    name with the same conditions, whatever the client did in between,
    builds the same query but for a strictly larger number of those
    spaces. *)
Theorem subscribe_counter_whitespace
    (w : World) (eventName : string) (conditions : Conditions)
    (callback1 callback2 : option Fn) :
  isWebSocket (client w) = true ->
  mem eventName systemEvent = false ->
  (forall s, conditions <> CondString s) ->
  let o := properties (default_conditions conditions) in
  let suffix := "'Tx'" +:+ and_tail (map (clause o) (Object_keys o)) in
  exists this1 c1,
    subscribe (client w) eventName conditions callback1 = Normal (this1, c1)
    /\ countSubscribeEvent this1 = S (countSubscribeEvent (client w))
    /\ Closure.query c1
       = "tm.event = " +:+ whitespace (countSubscribeEvent this1) +:+ suffix
    /\ forall actions,
         let w2 := run (step w (CallSubscribe eventName conditions callback1)) actions in
         exists this2 c2,
           subscribe (client w2) eventName conditions callback2 = Normal (this2, c2)
           /\ Closure.query c2
              = "tm.event = " +:+ whitespace (countSubscribeEvent this2) +:+ suffix
           /\ countSubscribeEvent this1 < countSubscribeEvent this2.
Proof.
  intros Hws Hsys Hcond o suffix.
  assert (forall this callback, isWebSocket this = true ->
            exists this' c,
              subscribe this eventName conditions callback = Normal (this', c)
              /\ countSubscribeEvent this' = S (countSubscribeEvent this)
              /\ Closure.query c
                 = "tm.event = " +:+ whitespace (countSubscribeEvent this') +:+ suffix)
    as Hone.
  { intros this callback Hthis. eexists _, _. split.
    - by apply subscribe_structured.
    - rewrite Hsys. simpl. split; [lia|].
      rewrite reduce_join_clauses, concat_seed. fold o.
      unfold suffix. by rewrite spaces_whitespace, !append_assoc. }
  destruct (Hone (client w) callback1 Hws) as (this1 & c1 & Hsub1 & Hcount1 & Hq1).
  exists this1, c1. repeat split; try done.
  intros actions w2.
  assert (step w (CallSubscribe eventName conditions callback1)
          = {| client := this1; inflight := inflight w ++ [SubscribeRequest c1] |})
    as Hstep by (simpl; by rewrite Hsub1).
  assert (isWebSocket (client w2) = true) as Hws2.
  { unfold w2. by rewrite run_isWebSocket, step_isWebSocket. }
  destruct (Hone (client w2) callback2 Hws2) as (this2 & c2 & Hsub2 & Hcount2 & Hq2).
  exists this2, c2. repeat split; try done.
  pose proof (run_count (step w (CallSubscribe eventName conditions callback1)) actions)
    as Hle.
  fold w2 in Hle. rewrite Hstep in Hle. simpl in Hle. lia.
Qed.

End CounterClaims.

(** C2: a counterexample to the claim as stated.  With a string as
    conditions the query is that string: it has no seed clause, and two
    subscriptions in a row to the same non-system event name send the
    same query although the counter went from 1 to 2. *)
Lemma subscribe_string_conditions_counterexample :
  exists this1 c1 this2 c2,
    subscribe (H := Sample.runtime) (constructor "ws://localhost:26657/websocket")
      "Transferred" (CondString "tx.height>0") (Some 1)
    = Normal (this1, c1)
    /\ subscribe (H := Sample.runtime) this1
         "Transferred" (CondString "tx.height>0") (Some 1)
       = Normal (this2, c2)
    /\ countSubscribeEvent this1 = 1 /\ countSubscribeEvent this2 = 2
    /\ Closure.query c1 = "tx.height>0"
    /\ Closure.query c2 = "tx.height>0".
Proof. eexists _, _, _, _. repeat split. Qed.

(** ** Registration and removal *)

Section RegistryClaims.
Context `{Runtime}.

(** What a step does to the registry: nothing, unless it settles a
    request in flight. *)
Lemma step_subscriptions w a :
  subscriptions (client (step w a)) = subscriptions (client w)
  \/ (exists k c result,
        a = Resolve k result /\ inflight w !! k = Some (SubscribeRequest c)
        /\ subscriptions (client (step w a))
           = store_subscription (subscriptions (client w)) (Result.id result)
               (subscription_of c result))
  \/ (exists k i result,
        a = Resolve k result /\ inflight w !! k = Some (UnsubscribeRequest i)
        /\ subscriptions (client (step w a))
           = delete_subscription (subscriptions (client w)) i).
Proof.
  destruct a as [e c cb | i | e em c | kind cb | | m | k r | k]; simpl.
  - destruct (subscribe (client w) e c cb) as [[this' cl]|] eqn:Hsub; [|by left].
    apply subscribe_normal in Hsub as (_ & count & q & -> & _). by left.
  - destruct (unsubscribe (client w) i) as [[this' u]|] eqn:Hun; [|by left].
    apply unsubscribe_normal in Hun
      as (_ & [(-> & -> & _) | (q & -> & _ & ->)]); by left.
  - destruct (getPastEvents (client w) e em c) as [this'|] eqn:Hget; [|by left].
    apply searchTransactions_normal in Hget as ->. by left.
  - destruct (on kind (client w) cb) as [this'|] eqn:Hon; [|by left].
    apply on_normal in Hon as (_ & ->). by left.
  - left. apply close_fields.
  - by left.
  - unfold settle. destruct (inflight w !! k) as [[c | i]|] eqn:Hk; simpl.
    + right; left. by exists k, c, r.
    + right; right. by exists k, i, r.
    + by left.
  - by left.
Qed.

(** C4, as amended.  When a [subscribe] request resolves to an id that
    the registry already holds, registration goes through without an
    error: the entry under that id is overwritten by the record of the new
    subscription, one more [onMessage] listener is registered, and the
    request leaves the requests in flight. *)
Theorem duplicate_id_overwrites
    (endpoint : string) (actions : list Action)
    (k : nat) (c : Closure.t) (result : Result.t) (old : Subscription.t) :
  let w := run (boot endpoint) actions in
  inflight w !! k = Some (SubscribeRequest c) ->
  lookup_subscription (subscriptions (client w)) (Result.id result) = Entry old ->
  let w' := step w (Resolve k result) in
  lookup_subscription (subscriptions (client w')) (Result.id result)
  = Entry {| Subscription.id := Result.id result;
             Subscription.subscribeMethod :=
               or_else (Closure.nonSystemEventName c) (Closure.eventName c);
             Subscription.query := Closure.query c |}
  /\ listeners (rpc (client w'))
     = (listeners (rpc (client w)) ++ [("onMessage", SubscriptionListener c result)])%list
  /\ inflight w' = delete k (inflight w).
Proof.
  intros w Hk _ w'. unfold w'. simpl. unfold settle. rewrite Hk. simpl.
  split; [|done].
  apply lookup_store_eq.
  apply (invariant_run _ actions (invariant_boot endpoint)).
Qed.

(** A registered subscription survives every step but the
    acknowledgement of an [unsubscribe] for its id. *)
Lemma entry_survives_step w a subscriptionId s :
  well_formed (subscriptions (client w)) ->
  lookup_subscription (subscriptions (client w)) subscriptionId = Entry s ->
  acknowledges subscriptionId w a = false ->
  exists s',
    lookup_subscription (subscriptions (client (step w a))) subscriptionId = Entry s'.
Proof.
  intros Hwf Hs Hack.
  destruct (step_subscriptions w a)
    as [Hsame | [(k & c & r & -> & Hk & Hstore) | (k & i & r & -> & Hk & Hdel)]].
  - rewrite Hsame. eauto.
  - rewrite Hstore.
    destruct (decide (subscriptionId = Result.id r)) as [-> | Hne].
    + eexists. by apply lookup_store_eq.
    + eexists. by apply lookup_store_other.
  - simpl in Hack. rewrite Hk in Hack. apply String.eqb_neq in Hack.
    rewrite Hdel, lookup_delete_other by done. eauto.
Qed.

Lemma entry_survives_run w more subscriptionId s :
  invariant w ->
  lookup_subscription (subscriptions (client w)) subscriptionId = Entry s ->
  (forall n a, more !! n = Some a ->
               acknowledges subscriptionId (run w (take n more)) a = false) ->
  exists s',
    lookup_subscription (subscriptions (client (run w more))) subscriptionId = Entry s'.
Proof.
  intros Hinv Hs. induction more as [|a more IH] using rev_ind; intros Hno.
  - eauto.
  - rewrite run_snoc.
    destruct IH as [s' Hs'].
    { intros n a' Hn.
      pose proof (lookup_lt_Some _ _ _ Hn) as Hlt.
      rewrite <- (take_app_le more [a] n) by lia.
      apply Hno. by rewrite lookup_app_l. }
    eapply entry_survives_step; [by apply invariant_run | exact Hs' |].
    rewrite <- (take_app_length more [a]) at 1.
    apply Hno. by rewrite list_lookup_middle.
Qed.

(** C7.  After any run from a fresh client, for an id with a registered
    subscription: the [unsubscribe] call sends the request with the stored
    query and leaves the registry as it is; as long as no [unsubscribe]
    request for that id is resolved the id keeps a registered
    subscription, whatever else happens, be the request pending or
    rejected; and the resolution of such a request deletes the entry
    (an own property: a record stored under [__proto__] stands as the
    prototype and is not deleted). *)
Theorem unsubscribe_removes_only_on_acknowledgement
    (endpoint : string) (actions : list Action)
    (subscriptionId : string) (s : Subscription.t) :
  let w := run (boot endpoint) actions in
  lookup_subscription (subscriptions (client w)) subscriptionId = Entry s ->
  step w (CallUnsubscribe subscriptionId)
  = {| client :=
         set_rpc (client w)
           (call (rpc (client w)) "unsubscribe" (Some (Subscription.query s)));
       inflight := (inflight w ++ [UnsubscribeRequest subscriptionId])%list |}
  /\ (forall more,
        (forall n a, more !! n = Some a ->
                     acknowledges subscriptionId (run w (take n more)) a = false) ->
        exists s',
          lookup_subscription (subscriptions (client (run w more))) subscriptionId
          = Entry s')
  /\ (forall k result,
        inflight w !! k = Some (UnsubscribeRequest subscriptionId) ->
        let w' := step w (Resolve k result) in
        subscriptions (client w')
        = delete_subscription (subscriptions (client w)) subscriptionId
        /\ (subscriptionId <> "__proto__" ->
            forall s',
              lookup_subscription (subscriptions (client w')) subscriptionId
              <> Entry s')).
Proof.
  intros w Hs.
  pose proof (registered_over_websocket endpoint actions _ _ Hs) as Hws.
  pose proof (invariant_run _ actions (invariant_boot endpoint)) as Hinv.
  fold w in Hws, Hinv. split; [|split].
  - simpl. unfold unsubscribe. by rewrite Hws, Hs.
  - intros more Hno. by eapply entry_survives_run.
  - intros k result Hk w'.
    assert (subscriptions (client w')
            = delete_subscription (subscriptions (client w)) subscriptionId) as Hdel.
    { unfold w'. simpl. unfold settle. by rewrite Hk. }
    split; [exact Hdel|]. intros Hne s'. rewrite Hdel.
    by apply lookup_delete_eq_own.
Qed.

(** C8, as amended.  Over a WebSocket transport, [unsubscribe] on an id at
    which the registry holds nothing (reading it yields undefined) returns
    a promise rejected with the error that the subscription does not
    exist; no request is sent and the client, its registry included, is
    unchanged. *)
Theorem unsubscribe_unknown_id_rejects
    (this : IceTeaWeb3) (subscriptionId : string) :
  isWebSocket this = true ->
  lookup_subscription (subscriptions this) subscriptionId = Absent ->
  unsubscribe this subscriptionId
  = Normal (this,
            RejectedWith
              (Err ("Error: Subscription with ID " +:+ subscriptionId
                    +:+ " does not exist."))).
Proof. intros Hws Habsent. unfold unsubscribe. by rewrite Hws, Habsent. Qed.

(** C10.  The resolution of a [subscribe] request registers one more
    [onMessage] listener, which stays registered whatever the client does
    afterwards.  An [unsubscribe] call changes neither listeners nor
    registry nor counter; followed by the resolution of its request it
    changes, besides sending the request, only the registry, and there
    only the entry under the given id: listeners, counter and requests in
    flight are as before. *)
Theorem subscribe_listener_outlives_unsubscribe
    (w : World) (k : nat) (c : Closure.t) (result : Result.t) :
  inflight w !! k = Some (SubscribeRequest c) ->
  let w1 := step w (Resolve k result) in
  listeners (rpc (client w1))
  = (listeners (rpc (client w)) ++ [("onMessage", SubscriptionListener c result)])%list
  /\ (forall actions,
        listeners (rpc (client w1))
        `prefix_of` listeners (rpc (client (run w1 actions))))
  /\ (forall w2 subscriptionId,
        let w3 := step w2 (CallUnsubscribe subscriptionId) in
        listeners (rpc (client w3)) = listeners (rpc (client w2))
        /\ subscriptions (client w3) = subscriptions (client w2)
        /\ countSubscribeEvent (client w3) = countSubscribeEvent (client w2))
  /\ (forall w2 subscriptionId ack,
        isWebSocket (client w2) = true ->
        defined (lookup_subscription (subscriptions (client w2)) subscriptionId)
        = true ->
        let w3 := step w2 (CallUnsubscribe subscriptionId) in
        let w4 := step w3 (Resolve (length (inflight w2)) ack) in
        inflight w3 = (inflight w2 ++ [UnsubscribeRequest subscriptionId])%list
        /\ listeners (rpc (client w4)) = listeners (rpc (client w2))
        /\ countSubscribeEvent (client w4) = countSubscribeEvent (client w2)
        /\ isWebSocket (client w4) = isWebSocket (client w2)
        /\ inflight w4 = inflight w2
        /\ subscriptions (client w4)
           = delete_subscription (subscriptions (client w2)) subscriptionId
        /\ forall other, other <> subscriptionId ->
             lookup_subscription (subscriptions (client w4)) other
             = lookup_subscription (subscriptions (client w2)) other).
Proof.
  intros Hk w1. split; [|split; [|split]].
  - unfold w1. simpl. unfold settle. by rewrite Hk.
  - intros actions. apply run_listeners.
  - intros w2 i. simpl.
    destruct (unsubscribe (client w2) i) as [[this' u]|] eqn:Hun; [|done].
    by apply unsubscribe_normal in Hun
      as (_ & [(-> & -> & _) | (q & -> & _ & ->)]).
  - intros w2 i ack Hws Hdef w3 w4.
    assert (exists q,
              w3 = {| client := set_rpc (client w2) (call (rpc (client w2)) "unsubscribe" q);
                      inflight := inflight w2 ++ [UnsubscribeRequest i] |})
      as [q Hw3].
    { unfold w3. simpl. unfold unsubscribe. rewrite Hws, Hdef. simpl.
      destruct (lookup_subscription (subscriptions (client w2)) i); [done| |];
        simpl; eauto. }
    assert (w4 = {| client := unsubscribe_then (client w3) i; inflight := inflight w2 |})
      as Hw4.
    { unfold w4. simpl. unfold settle. rewrite Hw3. simpl.
      rewrite lookup_app_r by done. rewrite Nat.sub_diag. simpl.
      f_equal. rewrite delete_middle. by rewrite app_nil_r. }
    rewrite Hw4, Hw3. simpl. repeat split; try done.
    intros other Hne. by apply lookup_delete_other.
Qed.

End RegistryClaims.

(** ** The router *)

Lemma bind_eval_normal {A B : Type} (a : A) (f : A -> Run B) :
  (eval (Normal a) ≫= f) = f a.
Proof. unfold mbind, Run_bind, eval. by destruct (f a). Qed.

Lemma bind_eval_throw {A B : Type} (e : Error) (f : A -> Run B) :
  (eval (Throw e) ≫= f) = ([], Throw e).
Proof. reflexivity. Qed.

(** A loop whose body calls back on the elements that pass a test, and
    does nothing on the others, makes one call per element that passes. *)
Lemma forEach_calls {A : Type} (test : A -> bool) (mk : A -> Call)
    (body : A -> Run unit) (l : list A) :
  (forall x, body x = if test x then ([mk x], Normal tt) else ([], Normal tt)) ->
  forEach l body = (map mk (List.filter test l), Normal tt).
Proof.
  intros Hbody. induction l as [|x l IH]; [reflexivity|].
  simpl. rewrite IH, Hbody. by destruct (test x).
Qed.

Section RouterClaims.
Context `{Runtime}.

(** The variables a [subscribe] call leaves to its callbacks. *)
Lemma subscribe_closure this eventName conditions callback this' c :
  subscribe this eventName conditions callback = Normal (this', c) ->
  Closure.isSystemEvent c = mem eventName systemEvent
  /\ Closure.nonSystemEventName c
     = (if mem eventName systemEvent then None else Some eventName)
  /\ Closure.eventName c = (if mem eventName systemEvent then eventName else "Tx").
Proof.
  unfold subscribe. destruct (isWebSocket this); [|done]. intros Hsub.
  destruct conditions as [| s | o | f]; destruct callback;
    simpl in Hsub; by injection Hsub as <- <-.
Qed.

(** A subscription whose recorded method is not a system event comes from
    a call with that method as event name, and the name is not empty. *)
Lemma non_system_subscription this eventName conditions callback this' c result :
  subscribe this eventName conditions callback = Normal (this', c) ->
  mem (Subscription.subscribeMethod (subscription_of c result)) systemEvent = false ->
  Closure.isSystemEvent c = false
  /\ Closure.nonSystemEventName c
     = Some (Subscription.subscribeMethod (subscription_of c result))
  /\ Subscription.subscribeMethod (subscription_of c result) <> "".
Proof.
  intros Hsub Hm. apply subscribe_closure in Hsub as (Hsys & Hnon & Hname).
  unfold subscription_of in *. simpl in *. rewrite Hnon, Hname in *.
  destruct (mem eventName systemEvent) eqn:Hmem; simpl in *; [congruence|].
  destruct (String.eqb_spec eventName "") as [-> | Hne]; [done|].
  by rewrite Hsys.
Qed.

(** C1, as amended.  Take the handler and the record that a [subscribe]
    call leaves once its request has resolved, the recorded method not
    being a system event and the callback being a function, and a message
    that parses to an envelope whose id is a string containing the
    subscription's id, while the registry holds the record under that id.
    When the subscription's id is not empty, the handler calls the
    callback once for each decoded event whose [eventName] is the recorded
    method, in order and for no other event, each time with the text of an
    envelope that has the [jsonrpc] and [id] of the message and, as
    [result], that event with [query] set to the stored query; it throws
    nothing, and with no such event it makes no call.  When the
    subscription's id is empty, the handler matches no message: on
    whatever text that parses, and whatever the registry holds, it calls
    nothing and throws nothing. *)
Theorem router_calls_back_per_matching_event
    (this : IceTeaWeb3) (eventName : string) (conditions : Conditions)
    (callback : option Fn) (this' : IceTeaWeb3) (c : Closure.t)
    (result : Result.t) (f : Fn)
    (subs : Registry) (message : string) (envelope : Value) (id : string) :
  subscribe this eventName conditions callback = Normal (this', c) ->
  Closure.callback c = Some f ->
  let sub := subscription_of c result in
  mem (Subscription.subscribeMethod sub) systemEvent = false ->
  lookup_subscription subs (Result.id result) = Entry sub ->
  JSON_parse message = Some envelope ->
  member envelope "id" = Normal (VStr id) ->
  includes id (Result.id result) = true ->
  (Result.id result <> "" ->
   exists jsonrpc payload,
     member envelope "jsonrpc" = Normal jsonrpc
     /\ member envelope "result" = Normal payload
     /\ onMessage_handler subs c result message
        = (map
             (fun event =>
                {| callee := f;
                   arguments :=
                     [ VStr (JSON_stringify
                               (VObj [ ("jsonrpc", jsonrpc); ("id", VStr id);
                                       ("result",
                                        VObj (assign event "query"
                                                (VStr (Subscription.query sub)))) ]));
                       VNull; VNum 2 ] |})
             (List.filter (named (Subscription.subscribeMethod sub))
                (decodeEventData payload)),
           Normal tt))
  /\ (Result.id result = "" ->
      onMessage_handler subs c result message = ([], Normal tt)
      /\ forall registry text parsed,
           JSON_parse text = Some parsed ->
           onMessage_handler registry c result text = ([], Normal tt)).
Proof.
  intros Hsub Hcb sub Hm Hreg Hparse Hmid Hfound.
  split; [intros Hid | intros Hid].
  2: { assert (forall registry text parsed,
                 JSON_parse text = Some parsed ->
                 onMessage_handler registry c result text = ([], Normal tt))
         as Hnone.
       { intros registry text parsed Htext. unfold onMessage_handler.
         by rewrite Htext, bind_eval_normal, Hid. }
       split; [exact (Hnone subs message envelope Hparse) | exact Hnone]. }
  destruct (non_system_subscription _ _ _ _ _ _ result Hsub Hm)
    as (Hsys & Hnon & Hname).
  fold sub in Hnon, Hname. clearbody sub.
  destruct envelope as [| | | | | |fields]; try done.
  exists (default VUndefined (own fields "jsonrpc")),
    (default VUndefined (own fields "result")).
  split; [done|]. split; [done|].
  unfold onMessage_handler. rewrite Hparse, bind_eval_normal.
  apply String.eqb_neq in Hid. rewrite Hid.
  rewrite Hmid, bind_eval_normal. simpl indexOf_found.
  rewrite bind_eval_normal, Hfound, Hsys. simpl negb. cbv iota.
  simpl member. rewrite bind_eval_normal.
  apply forEach_calls. intros event.
  unfold route_event, named. rewrite Hnon, Hcb, Hreg. simpl strict_eq.
  destruct (strict_eq_string (Subscription.subscribeMethod sub)
              (default VUndefined (own event "eventName"))) eqn:Heq.
  - destruct (default VUndefined (own event "eventName")) as [| | | |m| |];
      try done.
    simpl in Heq. apply String.eqb_eq in Heq as <-.
    apply String.eqb_neq in Hname. simpl truthy. rewrite Hname. simpl.
    simpl in Hmid. injection Hmid as Hmid.
    rewrite ?bind_eval_normal. unfold reshape. simpl. by rewrite Hmid.
  - by rewrite andb_false_r.
Qed.

(** C3, as amended.  On a message that cannot be parsed into a
    well-formed envelope the handler that [subscribe] installs calls no
    callback, and the error leaves the handler: a SyntaxError when the
    text is not JSON, a TypeError when the envelope has no id (the
    parsed value is null, or its [id] is undefined) and the subscription
    id is not empty.  With an empty subscription id an envelope without
    id is passed over without effect. *)
Theorem malformed_message_raises
    (subs : Registry) (c : Closure.t) (result : Result.t) (message : string) :
  (JSON_parse message = None ->
   onMessage_handler subs c result message = ([], Throw SyntaxError))
  /\ (forall envelope,
        JSON_parse message = Some envelope ->
        member envelope "id" = Normal VUndefined
        \/ member envelope "id" = Throw TypeError ->
        onMessage_handler subs c result message
        = ([], if String.eqb (Result.id result) "" then Normal tt
               else Throw TypeError)).
Proof.
  split.
  - intros Hparse. unfold onMessage_handler. by rewrite Hparse.
  - intros envelope Hparse Hid. unfold onMessage_handler.
    rewrite Hparse, bind_eval_normal.
    destruct (String.eqb (Result.id result) ""); [done|].
    by destruct Hid as [-> | ->].
Qed.

End RouterClaims.

(** ** The claims at concrete inputs *)

Section Examples.
#[local] Existing Instance Sample.runtime.


(** Beyond the safe integers the clauses are those of the doubles: 2^53 + 1
    is no double, so that [toBlock: 9007199254740992] gives its own height
    and [fromBlock: 9007199254740994] the height two below, and a number
    from 10^21 on is written with an exponent.  A string under [toBlock]
    is concatenated with [1]. *)
Example clauses_beyond_safe_integers :
  clause [("toBlock", SNum 9007199254740992)] "toBlock"
  = "tx.height<9007199254740992"
  /\ clause [("fromBlock", SNum 9007199254740994)] "fromBlock"
     = "tx.height>9007199254740992"
  /\ clause [("amount", SNum 1000000000000000000000)] "amount" = "amount=1e+21"
  /\ clause [("amount", SNum 123456789012345678901)] "amount"
     = "amount=123456789012345680000"
  /\ clause [("fromBlock", SStr "5"); ("toBlock", SStr "5")] "fromBlock"
     = "tx.height>4"
  /\ clause [("fromBlock", SStr "5"); ("toBlock", SStr "5")] "toBlock"
     = "tx.height<51".
Proof. vm_compute. repeat split. Qed.

(** C6: a counterexample to the claim as stated.  The token in the seed
    clause has no dot between the emitter scope and the event name, so the
    query does not start with the clause the specification words. *)
Lemma seed_token_counterexample :
  getPastEvents_query "Transferred" None (CondObject [])
  = "EventNames CONTAINS '.Transferred|'"
  /\ spec_seed "." "Transferred" = "EventNames CONTAINS '..Transferred|'"
  /\ getPastEvents_query "Transferred" (Some "teat1") (CondObject [])
     = "EventNames CONTAINS '|teat1.Transferred|'"
  /\ spec_seed "|teat1." "Transferred" = "EventNames CONTAINS '|teat1..Transferred|'"
  /\ String.prefix (spec_seed "." "Transferred")
       (getPastEvents_query "Transferred" None (CondObject [])) = false
  /\ String.prefix (spec_seed "|teat1." "Transferred")
       (getPastEvents_query "Transferred" (Some "teat1") (CondObject [])) = false.
Proof. repeat split. Qed.

(** C6, as amended, for the emitter [teat1] and for none. *)
Lemma past_events_seed_clause_witness :
  "teat1" <> ""
  /\ getPastEvents_query "Transferred" (Some "teat1") (CondObject Sample.conditions)
     = "EventNames CONTAINS '|teat1.Transferred|' AND tx.height>4 AND tx.height<11 AND owner=alice"
  /\ getPastEvents_query "Transferred" None (CondObject Sample.conditions)
     = "EventNames CONTAINS '.Transferred|' AND tx.height>4 AND tx.height<11 AND owner=alice".
Proof.
  assert ("teat1" <> "") as Hne by discriminate.
  destruct (past_events_seed_clause "Transferred" Sample.conditions)
    as (Hnone & _ & Hsome).
  split; [exact Hne|]. split.
  - rewrite (Hsome "teat1" Hne). vm_compute. reflexivity.
  - rewrite Hnone. vm_compute. reflexivity.
Defined.

(** C9 for a fresh client over a WebSocket and the callback [7]. *)
Lemma function_conditions_witness :
  isWebSocket (constructor Sample.endpoint) = true
  /\ exists this' c,
       subscribe (constructor Sample.endpoint) "Transferred" (CondFunction 7) None
       = Normal (this', c)
       /\ Closure.callback c = Some 7
       /\ Closure.query c = "tm.event =  'Tx'".
Proof.
  assert (isWebSocket (constructor Sample.endpoint) = true) as Hws by reflexivity.
  split; [exact Hws|].
  destruct (function_conditions_is_the_callback
              (constructor Sample.endpoint) "Transferred" 7 Hws)
    as (this' & c & Hsub & Hcb & Hname & Hq & _).
  exists this', c. split; [exact Hsub|]. split; [exact Hcb|].
  rewrite Hq, Hname. vm_compute in Hsub. injection Hsub as <- _.
  vm_compute. reflexivity.
Defined.

(** C2, as amended, for two subscriptions to [Transferred] with the same
    condition mapping, the first request resolved in between. *)
Lemma subscribe_counter_whitespace_witness :
  isWebSocket (client (boot Sample.endpoint)) = true
  /\ mem "Transferred" systemEvent = false
  /\ exists this1 c1 this2 c2,
       subscribe (client (boot Sample.endpoint)) "Transferred"
         (CondObject Sample.conditions) (Some 7) = Normal (this1, c1)
       /\ subscribe
            (client
               (run (step (boot Sample.endpoint)
                       (CallSubscribe "Transferred" (CondObject Sample.conditions) (Some 7)))
                  [Resolve 0 (Result.make "0.42")]))
            "Transferred" (CondObject Sample.conditions) (Some 8)
          = Normal (this2, c2)
       /\ Closure.query c1
          = "tm.event = " +:+ " " +:+ "'Tx' AND tx.height>4 AND tx.height<11 AND owner=alice"
       /\ Closure.query c2
          = "tm.event = " +:+ "  " +:+ "'Tx' AND tx.height>4 AND tx.height<11 AND owner=alice"
       /\ countSubscribeEvent this1 < countSubscribeEvent this2.
Proof.
  assert (isWebSocket (client (boot Sample.endpoint)) = true) as Hws by reflexivity.
  assert (mem "Transferred" systemEvent = false) as Hsys by reflexivity.
  assert (forall s, CondObject Sample.conditions <> CondString s) as Hcond
    by discriminate.
  split; [exact Hws|]. split; [exact Hsys|].
  destruct (subscribe_counter_whitespace (boot Sample.endpoint) "Transferred"
              (CondObject Sample.conditions) (Some 7) (Some 8) Hws Hsys Hcond)
    as (this1 & c1 & Hsub1 & Hcount1 & Hq1 & Hnext).
  destruct (Hnext [Resolve 0 (Result.make "0.42")])
    as (this2 & c2 & Hsub2 & Hq2 & Hlt).
  exists this1, c1, this2, c2.
  split; [exact Hsub1|]. split; [exact Hsub2|].
  split; [|split; [|exact Hlt]].
  - rewrite Hq1. vm_compute in Hsub1. injection Hsub1 as <- _.
    vm_compute. reflexivity.
  - rewrite Hq2. vm_compute in Hsub2. injection Hsub2 as <- _.
    vm_compute. reflexivity.
Defined.

(** C1: a counterexample to the claim as stated.  The request resolved to
    the empty id, which every envelope id contains; the registry holds
    the non-system subscription under it and the message carries a
    [Transferred] event, yet the listener of the subscription, the only
    one registered, calls nothing. *)
Lemma router_empty_id_counterexample :
  let w := Sample.subscribed "" in
  lookup_subscription (subscriptions (client w)) ""
  = Entry (Subscription.make "" "Transferred" "tm.event =  'Tx'")
  /\ mem "Transferred" systemEvent = false
  /\ JSON_parse Sample.message = Some Sample.envelope
  /\ member Sample.envelope "id" = Normal (VStr "0.42#event")
  /\ includes "0.42#event" "" = true
  /\ List.filter (named "Transferred")
       (decodeEventData
          (VObj [ ("events",
                   VArr [ VObj [ ("eventName", VStr "Transferred");
                                 ("emitter", VStr "teat1") ];
                          VObj [ ("eventName", VStr "Other") ] ]) ]))
     = [[ ("eventName", VStr "Transferred"); ("emitter", VStr "teat1") ]]
  /\ listeners (rpc (client w))
     = [("onMessage", SubscriptionListener Sample.transferred (Result.make ""))]
  /\ map (fun l => notify (client w) (snd l) Sample.message)
       (listeners (rpc (client w)))
     = [([], Normal tt)].
Proof. vm_compute. repeat split. Qed.

(** C1, as amended, on the message of a transaction that raised
    [Transferred] and [Other]: for the subscription to [Transferred] that
    resolved to the id [0.42], one call, with the [Transferred] event and
    the stored query; for the one that resolved to the empty id, no
    call. *)
Lemma router_calls_back_witness :
  let w := Sample.subscribed "0.42" in
  let w0 := Sample.subscribed "" in
  lookup_subscription (subscriptions (client w)) "0.42"
  = Entry (Subscription.make "0.42" "Transferred" "tm.event =  'Tx'")
  /\ JSON_parse Sample.message = Some Sample.envelope
  /\ includes "0.42#event" "0.42" = true
  /\ onMessage_handler (subscriptions (client w)) Sample.transferred
       (Result.make "0.42") Sample.message
     = ([ {| callee := 7;
             arguments :=
               [ VStr (JSON_stringify
                         (VObj [ ("jsonrpc", VStr "2.0");
                                 ("id", VStr "0.42#event");
                                 ("result",
                                  VObj [ ("eventName", VStr "Transferred");
                                         ("emitter", VStr "teat1");
                                         ("query", VStr "tm.event =  'Tx'") ]) ]));
                 VNull; VNum 2 ] |} ],
        Normal tt)
  /\ lookup_subscription (subscriptions (client w0)) ""
     = Entry (Subscription.make "" "Transferred" "tm.event =  'Tx'")
  /\ includes "0.42#event" "" = true
  /\ onMessage_handler (subscriptions (client w0)) Sample.transferred
       (Result.make "") Sample.message
     = ([], Normal tt).
Proof.
  intros w w0.
  assert (subscribe (constructor Sample.endpoint) "Transferred" CondMissing (Some 7)
          = Normal (client (step (boot Sample.endpoint)
                              (CallSubscribe "Transferred" CondMissing (Some 7))),
                    Sample.transferred)) as Hsub by (vm_compute; reflexivity).
  assert (lookup_subscription (subscriptions (client w)) "0.42"
          = Entry (subscription_of Sample.transferred (Result.make "0.42"))) as Hreg
    by (vm_compute; reflexivity).
  assert (lookup_subscription (subscriptions (client w0)) ""
          = Entry (subscription_of Sample.transferred (Result.make ""))) as Hreg0
    by (vm_compute; reflexivity).
  assert (JSON_parse Sample.message = Some Sample.envelope) as Hparse
    by (vm_compute; reflexivity).
  assert (includes "0.42#event" "0.42" = true) as Hin by (vm_compute; reflexivity).
  assert (includes "0.42#event" "" = true) as Hin0 by (vm_compute; reflexivity).
  assert (Result.id (Result.make "0.42") <> "") as Hid by discriminate.
  destruct (proj1 (router_calls_back_per_matching_event
                     _ _ _ _ _ _ (Result.make "0.42") 7
                     (subscriptions (client w)) Sample.message Sample.envelope
                     "0.42#event"
                     Hsub eq_refl eq_refl Hreg Hparse eq_refl Hin) Hid)
    as (jsonrpc & payload & Hjsonrpc & Hpayload & Hcalls).
  destruct (proj2 (router_calls_back_per_matching_event
                     _ _ _ _ _ _ (Result.make "") 7
                     (subscriptions (client w0)) Sample.message Sample.envelope
                     "0.42#event"
                     Hsub eq_refl eq_refl Hreg0 Hparse eq_refl Hin0) eq_refl)
    as [Hnone _].
  split; [exact Hreg|]. split; [exact Hparse|]. split; [exact Hin|].
  split; [|split; [exact Hreg0|split; [exact Hin0|exact Hnone]]].
  rewrite Hcalls. injection Hjsonrpc as <-. injection Hpayload as <-.
  vm_compute. reflexivity.
Defined.

(** C3: a counterexample to the claim as stated.  The listener of a
    subscription throws on text that is not JSON and on an envelope
    without id. *)
Lemma malformed_message_counterexample :
  let w := Sample.subscribed "0.42" in
  let no_id := VObj [ ("jsonrpc", VStr "2.0"); ("result", VObj []) ] in
  listeners (rpc (client w))
  = [("onMessage", SubscriptionListener Sample.transferred (Result.make "0.42"))]
  /\ JSON_parse "{oops" = None
  /\ map (fun l => notify (client w) (snd l) "{oops") (listeners (rpc (client w)))
     = [([], Throw SyntaxError)]
  /\ JSON_parse (JSON_stringify no_id) = Some no_id
  /\ map (fun l => notify (client w) (snd l) (JSON_stringify no_id))
       (listeners (rpc (client w)))
     = [([], Throw TypeError)].
Proof. vm_compute. repeat split. Qed.

(** C3, as amended, on the same two messages. *)
Lemma malformed_message_witness :
  let w := Sample.subscribed "0.42" in
  let no_id := VObj [ ("jsonrpc", VStr "2.0"); ("result", VObj []) ] in
  JSON_parse "{oops" = None
  /\ onMessage_handler (subscriptions (client w)) Sample.transferred
       (Result.make "0.42") "{oops"
     = ([], Throw SyntaxError)
  /\ JSON_parse (JSON_stringify no_id) = Some no_id
  /\ member no_id "id" = Normal VUndefined
  /\ onMessage_handler (subscriptions (client w)) Sample.transferred
       (Result.make "0.42") (JSON_stringify no_id)
     = ([], Throw TypeError).
Proof.
  intros w no_id.
  assert (JSON_parse "{oops" = None) as Hbad by (vm_compute; reflexivity).
  assert (JSON_parse (JSON_stringify no_id) = Some no_id) as Hgood
    by (vm_compute; reflexivity).
  split; [exact Hbad|]. split.
  - exact (proj1 (malformed_message_raises (subscriptions (client w))
                    Sample.transferred (Result.make "0.42") "{oops") Hbad).
  - split; [exact Hgood|]. split; [reflexivity|].
    exact (proj2 (malformed_message_raises (subscriptions (client w))
                    Sample.transferred (Result.make "0.42") (JSON_stringify no_id))
             no_id Hgood (or_introl eq_refl)).
Defined.

(** C4: a counterexample to the claim as stated.  A second subscription
    whose request resolves to the id of the first replaces the first's
    record, and nothing fails. *)
Lemma duplicate_id_counterexample :
  let w := run (Sample.subscribed "0.42") [CallSubscribe "Minted" CondMissing (Some 8)] in
  lookup_subscription (subscriptions (client w)) "0.42"
  = Entry (Subscription.make "0.42" "Transferred" "tm.event =  'Tx'")
  /\ inflight w
     = [SubscribeRequest
          (Closure.make false (Some "Minted") "Tx" "tm.event =   'Tx'" (Some 8))]
  /\ lookup_subscription
       (subscriptions (client (step w (Resolve 0 (Result.make "0.42"))))) "0.42"
     = Entry (Subscription.make "0.42" "Minted" "tm.event =   'Tx'").
Proof. vm_compute. repeat split. Qed.

(** C4, as amended, on that run. *)
Lemma duplicate_id_overwrites_witness :
  let actions :=
    [ CallSubscribe "Transferred" CondMissing (Some 7);
      Resolve 0 (Result.make "0.42");
      CallSubscribe "Minted" CondMissing (Some 8) ] in
  let w := run (boot Sample.endpoint) actions in
  let minted := Closure.make false (Some "Minted") "Tx" "tm.event =   'Tx'" (Some 8) in
  inflight w !! 0 = Some (SubscribeRequest minted)
  /\ lookup_subscription (subscriptions (client w)) "0.42"
     = Entry (Subscription.make "0.42" "Transferred" "tm.event =  'Tx'")
  /\ lookup_subscription
       (subscriptions (client (step w (Resolve 0 (Result.make "0.42"))))) "0.42"
     = Entry (Subscription.make "0.42" "Minted" "tm.event =   'Tx'")
  /\ length (listeners (rpc (client (step w (Resolve 0 (Result.make "0.42")))))) = 2.
Proof.
  intros actions w minted.
  assert (inflight w !! 0 = Some (SubscribeRequest minted)) as Hk
    by (vm_compute; reflexivity).
  assert (lookup_subscription (subscriptions (client w))
            (Result.id (Result.make "0.42"))
          = Entry (Subscription.make "0.42" "Transferred" "tm.event =  'Tx'")) as Hold
    by (vm_compute; reflexivity).
  destruct (duplicate_id_overwrites Sample.endpoint actions 0 minted
              (Result.make "0.42") _ Hk Hold) as (Hnew & Hlisteners & _).
  split; [exact Hk|]. split; [exact Hold|]. split; [exact Hnew|].
  fold w in Hlisteners. rewrite Hlisteners. vm_compute. reflexivity.
Defined.

(** C7 for the subscription that resolved to [0.42]: the call sends the
    stored query and adds a request in flight; the entry is there while
    the request is pending and after it was rejected; the resolution
    removes it. *)
Lemma unsubscribe_acknowledgement_witness :
  let actions :=
    [ CallSubscribe "Transferred" CondMissing (Some 7);
      Resolve 0 (Result.make "0.42") ] in
  let w := run (boot Sample.endpoint) actions in
  let record := Subscription.make "0.42" "Transferred" "tm.event =  'Tx'" in
  let w' := step w (CallUnsubscribe "0.42") in
  lookup_subscription (subscriptions (client w)) "0.42" = Entry record
  /\ inflight w' = [UnsubscribeRequest "0.42"]
  /\ last (sent (rpc (client w')))
     = Some {| method := "unsubscribe"; params_query := Some "tm.event =  'Tx'" |}
  /\ (exists s',
        lookup_subscription
          (subscriptions
             (client (run w [CallUnsubscribe "0.42"; Deliver Sample.message; Reject 0])))
          "0.42"
        = Entry s')
  /\ lookup_subscription
       (subscriptions (client (step w' (Resolve 0 (Result.make "0.43"))))) "0.42"
     = Absent.
Proof.
  intros actions w record w'.
  assert (lookup_subscription (subscriptions (client w)) "0.42" = Entry record)
    as Hreg by (vm_compute; reflexivity).
  destruct (unsubscribe_removes_only_on_acknowledgement
              Sample.endpoint actions "0.42" record Hreg) as (Hcall & Hkept & _).
  fold w in Hcall, Hkept. fold w' in Hcall.
  split; [exact Hreg|]. split; [rewrite Hcall; reflexivity|].
  split; [rewrite Hcall; reflexivity|]. split.
  - apply Hkept. intros [|[|[|n]]] a Hn; simpl in Hn; [| | |done];
      injection Hn as <-; vm_compute; reflexivity.
  - rewrite Hcall. vm_compute. reflexivity.
Defined.

(** C8: a counterexample to the claim as stated.  Over HTTP no id has a
    registered subscription, and [unsubscribe] throws instead of
    returning a rejected promise. *)
Lemma unsubscribe_http_counterexample :
  isWebSocket (constructor "http://localhost:26657") = false
  /\ lookup_subscription (subscriptions (constructor "http://localhost:26657")) "0.42"
     = Absent
  /\ unsubscribe (constructor "http://localhost:26657") "0.42"
     = Throw (Err "unsubscribe for WebSocket only").
Proof. vm_compute. repeat split. Qed.

(** C8, as amended, for an id that was never issued. *)
Lemma unsubscribe_unknown_id_witness :
  let this := client (Sample.subscribed "0.42") in
  isWebSocket this = true
  /\ lookup_subscription (subscriptions this) "0.99" = Absent
  /\ unsubscribe this "0.99"
     = Normal (this,
               RejectedWith (Err "Error: Subscription with ID 0.99 does not exist.")).
Proof.
  intros this.
  assert (isWebSocket this = true) as Hws by (vm_compute; reflexivity).
  assert (lookup_subscription (subscriptions this) "0.99" = Absent) as Habsent
    by (vm_compute; reflexivity).
  split; [exact Hws|]. split; [exact Habsent|].
  exact (unsubscribe_unknown_id_rejects this "0.99" Hws Habsent).
Defined.

(** An id that names a property of [Object.prototype] reads as defined
    although no subscription is registered under it: [unsubscribe] then
    sends a request whose query is undefined. *)
Example unsubscribe_inherited_name :
  let this := constructor Sample.endpoint in
  entries (subscriptions this) !! "toString" = None
  /\ unsubscribe this "toString"
     = Normal (set_rpc this (call (rpc this) "unsubscribe" None),
               Awaiting "toString").
Proof. vm_compute. repeat split. Qed.

(** C10 for the subscription that resolves to [0.42], unsubscribed
    afterwards: its listener is still the one registered. *)
Lemma subscribe_listener_witness :
  let w := step (boot Sample.endpoint)
             (CallSubscribe "Transferred" CondMissing (Some 7)) in
  let w1 := step w (Resolve 0 (Result.make "0.42")) in
  let w4 := step (step w1 (CallUnsubscribe "0.42")) (Resolve 0 (Result.make "0.43")) in
  inflight w !! 0 = Some (SubscribeRequest Sample.transferred)
  /\ listeners (rpc (client w1))
     = [("onMessage", SubscriptionListener Sample.transferred (Result.make "0.42"))]
  /\ listeners (rpc (client w4)) = listeners (rpc (client w1))
  /\ lookup_subscription (subscriptions (client w4)) "0.42" = Absent.
Proof.
  intros w w1 w4.
  assert (inflight w !! 0 = Some (SubscribeRequest Sample.transferred)) as Hk
    by (vm_compute; reflexivity).
  destruct (subscribe_listener_outlives_unsubscribe w 0 Sample.transferred
              (Result.make "0.42") Hk) as (Hnew & _ & _ & Hframe).
  fold w1 in Hnew, Hframe.
  assert (isWebSocket (client w1) = true) as Hws by (vm_compute; reflexivity).
  assert (defined (lookup_subscription (subscriptions (client w1)) "0.42") = true)
    as Hdef by (vm_compute; reflexivity).
  destruct (Hframe w1 "0.42" (Result.make "0.43") Hws Hdef)
    as (_ & Hsame & _ & _ & _ & Hsubs & _).
  assert (length (inflight w1) = 0) as Hlen by (vm_compute; reflexivity).
  rewrite Hlen in Hsame, Hsubs. fold w4 in Hsame, Hsubs.
  split; [exact Hk|]. split; [rewrite Hnew; vm_compute; reflexivity|].
  split; [exact Hsame|]. rewrite Hsubs. vm_compute. reflexivity.
Defined.

End Examples.

(** ** Runs of a client *)

Section RunFacts.
Context `{Runtime}.

Lemma unsubscribe_websocket_only this subscriptionId :
  isWebSocket this = false ->
  unsubscribe this subscriptionId = Throw (Err "unsubscribe for WebSocket only").
Proof. intros Hws. unfold unsubscribe. by rewrite Hws. Qed.

Lemma inert_step w a : inert w -> inert (step w a).
Proof.
  intros (Hws & Hsubs & Hl & Hfl & Hcount & Hclosed & Hsent).
  destruct a as [e c cb | i | e em c | kind cb | | m | k r | k]; simpl.
  - by rewrite subscribe_websocket_only.
  - by rewrite unsubscribe_websocket_only.
  - destruct (getPastEvents (client w) e em c) as [this'|] eqn:Hget; [|done].
    apply searchTransactions_normal in Hget as ->.
    repeat split; simpl; try done.
    apply Forall_app. split; [done|]. by constructor.
  - unfold on. by rewrite Hws.
  - unfold close. by rewrite Hws.
  - done.
  - unfold settle. by rewrite Hfl.
  - repeat split; simpl; try done. rewrite Hfl. by destruct k.
Qed.

(** X1.  A client built on an endpoint that starts with neither [ws://]
    nor [wss://] stays inert under every sequence of calls to [subscribe],
    [unsubscribe], [getPastEvents], [onMessage], [onResponse], [onError],
    [onClose] and [close], with deliveries and settlements in between:
    its registry is empty, no listener is registered, no [subscribe] or
    [unsubscribe] request awaits its response, the counter is 0, the
    transport is not closed, and the only requests these calls have sent
    are the [tx_search] requests of [getPastEvents].  (The other methods
    of the class, which send requests of their own, are not among these
    calls.) *)
Theorem http_client_stays_inert (endpoint : string) (actions : list Action) :
  String.prefix "ws://" endpoint = false ->
  String.prefix "wss://" endpoint = false ->
  let w := run (boot endpoint) actions in
  subscriptions (client w) = empty_registry
  /\ listeners (rpc (client w)) = []
  /\ inflight w = []
  /\ countSubscribeEvent (client w) = 0
  /\ closed (rpc (client w)) = false
  /\ Forall (fun r => method r = "tx_search") (sent (rpc (client w))).
Proof.
  intros Hws Hwss w.
  assert (inert w) as (_ & Hinert).
  { unfold w. induction actions as [|a actions IH] using rev_ind.
    - repeat split; simpl; try done. by rewrite Hws, Hwss.
    - rewrite run_snoc. by apply inert_step. }
  exact Hinert.
Qed.

Lemma subscribe_count this eventName conditions callback :
  isWebSocket this = true ->
  exists this' c,
    subscribe this eventName conditions callback = Normal (this', c)
    /\ countSubscribeEvent this'
       = countSubscribeEvent this
         + (if mem eventName systemEvent then 0 else 1).
Proof.
  intros Hws. unfold subscribe. rewrite Hws.
  destruct (mem eventName systemEvent);
    destruct conditions as [| s | o | f]; destruct callback;
    simpl; eexists _, _; (split; [reflexivity | simpl; lia]).
Qed.

Lemma step_counts w a :
  isWebSocket (client w) = true ->
  countSubscribeEvent (client (step w a))
  = countSubscribeEvent (client w) + (if non_system_subscribe a then 1 else 0).
Proof.
  intros Hws.
  destruct a as [e c cb | i | e em c | kind cb | | m | k r | k]; simpl.
  - destruct (subscribe_count (client w) e c cb Hws) as (this' & cl & -> & Hc).
    simpl. rewrite Hc. by destruct (mem e systemEvent).
  - destruct (unsubscribe (client w) i) as [[this' u]|] eqn:Hun; [|simpl; lia].
    apply unsubscribe_normal in Hun
      as (_ & [(-> & -> & _) | (q & -> & _ & ->)]); simpl; lia.
  - destruct (getPastEvents (client w) e em c) as [this'|] eqn:Hget; [|simpl; lia].
    apply searchTransactions_normal in Hget as ->. simpl. lia.
  - destruct (on kind (client w) cb) as [this'|] eqn:Hon; [|simpl; lia].
    apply on_normal in Hon as (_ & ->). simpl. lia.
  - rewrite (proj2 (proj2 (proj2 (close_fields _)))). lia.
  - lia.
  - unfold settle. destruct (inflight w !! k) as [[c | i]|]; simpl; lia.
  - lia.
Qed.

(** X2.  Over a WebSocket the counter counts the [subscribe] calls made
    for event names that are not system events, and nothing else: no call
    for a system event, no resolution or rejection of a request, no
    [unsubscribe] moves it. *)
Theorem counter_counts_non_system_subscribes (w : World) (actions : list Action) :
  isWebSocket (client w) = true ->
  countSubscribeEvent (client (run w actions))
  = countSubscribeEvent (client w)
    + length (List.filter non_system_subscribe actions).
Proof.
  intros Hws. induction actions as [|a actions IH] using rev_ind.
  - simpl. lia.
  - rewrite run_snoc, step_counts by (by rewrite run_isWebSocket).
    rewrite IH, List.filter_app, length_app. simpl.
    destruct (non_system_subscribe a); simpl; lia.
Qed.

End RunFacts.

(** ** More of the router *)

Lemma forEach_silent {A : Type} (body : A -> Run unit) (l : list A) :
  (forall x, fst (body x) = []) -> fst (forEach l body) = [].
Proof.
  intros Hbody. induction l as [|x l IH]; [reflexivity|].
  simpl. unfold mbind, Run_bind. specialize (Hbody x).
  destruct (body x) as [calls [[]|e]]; simpl in *; subst; [|done].
  by destruct (forEach l body).
Qed.

Lemma forEach_throws {A : Type} (test : A -> bool) (e : Error)
    (body : A -> Run unit) (l : list A) :
  (forall x, body x = if test x then ([], Throw e) else ([], Normal tt)) ->
  forEach l body = ([], if existsb test l then Throw e else Normal tt).
Proof.
  intros Hbody. induction l as [|x l IH]; [done|].
  simpl. rewrite Hbody. destruct (test x); [done|].
  simpl. by rewrite IH.
Qed.

Section RouterFacts.
Context `{Runtime}.

(** X3.  The handler of a subscription to a system event hands the raw
    message, as it came, to the callback, once, when the envelope id is a
    string that contains the non-empty subscription id.  It does so
    whatever the registry holds, hence also after the subscription was
    removed from it. *)
Theorem router_passes_system_message_verbatim
    (this : IceTeaWeb3) (eventName : string) (conditions : Conditions)
    (callback : option Fn) (this' : IceTeaWeb3) (c : Closure.t)
    (result : Result.t) (f : Fn)
    (subs : Registry) (message : string) (envelope : Value) (id : string) :
  subscribe this eventName conditions callback = Normal (this', c) ->
  mem eventName systemEvent = true ->
  Closure.callback c = Some f ->
  Result.id result <> "" ->
  JSON_parse message = Some envelope ->
  member envelope "id" = Normal (VStr id) ->
  includes id (Result.id result) = true ->
  onMessage_handler subs c result message
  = ([{| callee := f; arguments := [VStr message] |}], Normal tt).
Proof.
  intros Hsub Hsys Hcb Hid Hparse Hmid Hfound.
  apply subscribe_closure in Hsub as (Hc & _). rewrite Hsys in Hc.
  unfold onMessage_handler. rewrite Hparse, bind_eval_normal.
  apply String.eqb_neq in Hid. rewrite Hid.
  rewrite Hmid, bind_eval_normal. simpl indexOf_found.
  by rewrite bind_eval_normal, Hfound, Hc, Hcb.
Qed.

(** X4.  A message whose envelope id is a string that does not contain
    the subscription id is none of the handler's business: no callback is
    called, nothing is thrown, the payload is not decoded. *)
Theorem router_ignores_other_ids
    (subs : Registry) (c : Closure.t) (result : Result.t)
    (message : string) (envelope : Value) (id : string) :
  JSON_parse message = Some envelope ->
  member envelope "id" = Normal (VStr id) ->
  includes id (Result.id result) = false ->
  onMessage_handler subs c result message = ([], Normal tt).
Proof.
  intros Hparse Hmid Hfound.
  unfold onMessage_handler. rewrite Hparse, bind_eval_normal.
  destruct (String.eqb (Result.id result) ""); [done|].
  rewrite Hmid, bind_eval_normal. simpl indexOf_found.
  by rewrite bind_eval_normal, Hfound.
Qed.

Lemma matches_named (name : string) (event : Object) :
  name <> "" ->
  truthy (default VUndefined (own event "eventName"))
  && strict_eq (Some name) (default VUndefined (own event "eventName"))
  = named name event.
Proof.
  intros Hne. unfold named. simpl strict_eq.
  destruct (default VUndefined (own event "eventName")) as [| | | |m| |];
    simpl; try done; try apply andb_false_r.
  destruct (String.eqb_spec name m) as [<- | _]; [|apply andb_false_r].
  apply String.eqb_neq in Hne. by rewrite Hne.
Qed.

Lemma route_event_unregistered subs c result jsonMsg event :
  lookup_subscription subs (Result.id result) = Absent ->
  route_event subs c result jsonMsg event
  = if truthy (default VUndefined (own event "eventName"))
       && strict_eq (Closure.nonSystemEventName c)
            (default VUndefined (own event "eventName"))
    then ([], Throw TypeError)
    else ([], Normal tt).
Proof.
  intros Habsent. unfold route_event. rewrite Habsent.
  case_match; [|done]. by destruct jsonMsg.
Qed.

(** X5.  Once the registry holds nothing under the id of a subscription to
    a non-system event, its handler, which stays registered, never calls
    the callback again: a message with no event of the subscribed name is
    passed over, and one that carries such an event makes the handler
    throw a TypeError before any call. *)
Theorem unregistered_subscription_is_never_called_back
    (subs : Registry) (c : Closure.t) (result : Result.t) (message : string) :
  Closure.isSystemEvent c = false ->
  lookup_subscription subs (Result.id result) = Absent ->
  fst (onMessage_handler subs c result message) = []
  /\ (forall envelope id name payload,
        JSON_parse message = Some envelope ->
        member envelope "id" = Normal (VStr id) ->
        includes id (Result.id result) = true ->
        Result.id result <> "" ->
        Closure.nonSystemEventName c = Some name ->
        name <> "" ->
        member envelope "result" = Normal payload ->
        onMessage_handler subs c result message
        = ([], if existsb (named name) (decodeEventData payload)
               then Throw TypeError else Normal tt)).
Proof.
  intros Hsys Habsent. split.
  - unfold onMessage_handler.
    destruct (JSON_parse message) as [jsonMsg|]; [|done].
    rewrite bind_eval_normal.
    destruct (String.eqb (Result.id result) ""); [done|].
    destruct (member jsonMsg "id") as [id|]; [|done].
    rewrite bind_eval_normal.
    destruct (indexOf_found id (Result.id result)) as [[]|]; try done.
    rewrite bind_eval_normal, Hsys. simpl negb. cbv iota.
    destruct (member jsonMsg "result") as [payload|]; [|done].
    rewrite bind_eval_normal. apply forEach_silent. intros event.
    rewrite route_event_unregistered by done. by case_match.
  - intros envelope id name payload Hparse Hmid Hfound Hid Hname Hne Hpayload.
    unfold onMessage_handler. rewrite Hparse, bind_eval_normal.
    apply String.eqb_neq in Hid. rewrite Hid.
    rewrite Hmid, bind_eval_normal. simpl indexOf_found.
    rewrite bind_eval_normal, Hfound, Hsys. simpl negb. cbv iota.
    rewrite Hpayload, bind_eval_normal.
    apply (forEach_throws (named name)). intros event.
    rewrite route_event_unregistered, Hname by done.
    by rewrite matches_named.
Qed.

End RouterFacts.

(** ** Registry and listeners along a run *)

Lemma lookup_entry subs k s :
  lookup_subscription subs k = Entry s ->
  entries subs !! k = Some s \/ (k = "__proto__" /\ proto subs = Some s).
Proof.
  unfold lookup_subscription.
  destruct (entries subs !! k); [by intros [= ->]; left|].
  destruct (String.eqb_spec k "__proto__") as [-> | _].
  - destruct (proto subs); [by intros [= ->]; right | done].
  - by repeat case_match.
Qed.

Lemma backed_mono this this' k s :
  (forall l, In l (listeners (rpc this)) -> In l (listeners (rpc this'))) ->
  backed this k s -> backed this' k s.
Proof.
  intros Hsub (Hid & Hm & c & r & Hin & Hs). repeat split; try done.
  exists c, r. split; [by apply Hsub | done].
Qed.

Section Consistency.
Context `{Runtime}.

Lemma subscribe_names_a_method this eventName conditions callback this' c :
  subscribe this eventName conditions callback = Normal (this', c) ->
  names_a_method (SubscribeRequest c).
Proof.
  intros Hsub. apply subscribe_closure in Hsub as (_ & Hnon & Hname).
  simpl. rewrite Hnon, Hname.
  destruct (mem eventName systemEvent) eqn:Hmem; simpl.
  - by intros ->.
  - destruct (String.eqb_spec eventName ""); done.
Qed.

Lemma consistent_frame w this l :
  subscriptions this = subscriptions (client w) ->
  (forall x, In x (listeners (rpc (client w))) -> In x (listeners (rpc this))) ->
  Forall names_a_method l ->
  consistent w -> consistent {| client := this; inflight := l |}.
Proof.
  intros Hsubs Hl Hfl (Hown & Hproto & _). unfold consistent. simpl.
  rewrite Hsubs. split; [|split; [|done]].
  - intros k s Hk. by eapply backed_mono; [|apply Hown].
  - intros s Hs. by eapply backed_mono; [|apply Hproto].
Qed.

Lemma consistent_step w a : consistent w -> consistent (step w a).
Proof.
  intros Hw. pose proof Hw as (Hown & Hproto & Hfl).
  destruct a as [e c cb | i | e em c | kind cb | | m | k r | k]; simpl.
  - destruct (subscribe (client w) e c cb) as [[this' cl]|] eqn:Hsub; [|done].
    pose proof (subscribe_names_a_method _ _ _ _ _ _ Hsub) as Hcl.
    apply subscribe_normal in Hsub as (_ & count & q & -> & _).
    apply (consistent_frame w); try done.
    apply Forall_app. split; [done|]. by constructor.
  - destruct (unsubscribe (client w) i) as [[this' u]|] eqn:Hun; [|done].
    apply unsubscribe_normal in Hun
      as (_ & [(-> & -> & _) | (q & -> & _ & ->)]).
    + by destruct w.
    + apply (consistent_frame w); try done.
      apply Forall_app. split; [done|]. by constructor.
  - destruct (getPastEvents (client w) e em c) as [this'|] eqn:Hget; [|done].
    apply searchTransactions_normal in Hget as ->. by apply (consistent_frame w).
  - destruct (on kind (client w) cb) as [this'|] eqn:Hon; [|done].
    apply on_normal in Hon as (_ & ->). apply (consistent_frame w); try done.
    simpl. intros x Hx. apply in_or_app. by left.
  - apply (consistent_frame w); try done.
    + apply close_fields.
    + by rewrite (proj1 (proj2 (proj2 (close_fields _)))).
  - done.
  - unfold settle. destruct (inflight w !! k) as [[c | i]|] eqn:Hk; [| |done].
    + assert (backed (subscribe_then (client w) c r) (Result.id r)
                (subscription_of c r)) as Hnew.
      { repeat split; [|].
        - apply (Forall_lookup_1 _ _ _ _ Hfl Hk).
        - exists c, r. split; [|done]. simpl. apply in_or_app. right. by left. }
      assert (forall k' s', backed (client w) k' s' ->
                            backed (subscribe_then (client w) c r) k' s') as Hold.
      { intros k' s'. apply backed_mono. simpl. intros x Hx.
        apply in_or_app. by left. }
      unfold consistent. simpl. unfold store_subscription.
      destruct (String.eqb_spec (Result.id r) "__proto__") as [Heq | Hne]; simpl.
      * split; [|split; [|by apply Forall_delete]].
        -- intros k' s' Hk'. by apply Hold, Hown.
        -- intros s' [= <-]. by rewrite <- Heq.
      * split; [|split; [|by apply Forall_delete]].
        -- intros k' s' Hk'.
           destruct (decide (Result.id r = k')) as [<- | Hne'].
           ++ rewrite lookup_insert_eq in Hk'. by injection Hk' as <-.
           ++ rewrite lookup_insert_ne in Hk' by done. by apply Hold, Hown.
        -- intros s' Hs'. by apply Hold, Hproto.
    + unfold consistent. simpl. split; [|split; [done | by apply Forall_delete]].
      intros k' s' Hk'. apply lookup_delete_Some in Hk' as [_ Hk'].
      by apply Hown.
  - unfold consistent. simpl. split; [done|]. split; [done|].
    by apply Forall_delete.
Qed.

Lemma consistent_run endpoint actions : consistent (run (boot endpoint) actions).
Proof.
  induction actions as [|a actions IH] using rev_ind.
  - unfold consistent. simpl. split; [|split; [done | constructor]].
    intros k' s'. by rewrite lookup_empty.
  - rewrite run_snoc. by apply consistent_step.
Qed.

(** X6.  After any run from a fresh client, every subscription that the
    registry holds sits under its own id, records a method that is not
    empty, and is the record of a subscription whose [onMessage] listener
    is registered on the transport. *)
Theorem registered_subscriptions_have_listeners
    (endpoint : string) (actions : list Action) (k : string) (s : Subscription.t) :
  let this := client (run (boot endpoint) actions) in
  lookup_subscription (subscriptions this) k = Entry s ->
  Subscription.id s = k
  /\ Subscription.subscribeMethod s <> ""
  /\ exists c result,
       In ("onMessage", SubscriptionListener c result) (listeners (rpc this))
       /\ s = subscription_of c result.
Proof.
  intros this Hk.
  destruct (consistent_run endpoint actions) as (Hown & Hproto & _).
  apply lookup_entry in Hk as [Hk | [-> Hk]].
  - by apply Hown.
  - by apply Hproto.
Qed.

Lemma subscribe_sends this eventName conditions callback :
  isWebSocket this = true ->
  exists count c,
    subscribe this eventName conditions callback
    = Normal
        (set_rpc (set_countSubscribeEvent this count)
           (call (rpc this) "subscribe" (Some (Closure.query c))),
         c).
Proof.
  intros Hws. unfold subscribe. rewrite Hws.
  destruct (mem eventName systemEvent);
    destruct conditions as [| s | o | f]; destruct callback;
    simpl; eexists _, (Closure.make _ _ _ _ _); reflexivity.
Qed.

(** X7.  The query that [unsubscribe] sends is the one [subscribe] sent:
    after any run of a client over a WebSocket, a [subscribe] call, the
    resolution of its request to an id and an [unsubscribe] call on that
    id send two requests with the same query, the registry holding in
    between the record with that id and that query. *)
Theorem unsubscribe_sends_the_subscribed_query
    (endpoint : string) (actions : list Action)
    (eventName : string) (conditions : Conditions) (callback : option Fn)
    (result : Result.t) :
  let w := run (boot endpoint) actions in
  isWebSocket (client w) = true ->
  let w1 := step w (CallSubscribe eventName conditions callback) in
  let w2 := step w1 (Resolve (length (inflight w)) result) in
  let w3 := step w2 (CallUnsubscribe (Result.id result)) in
  exists q s,
    sent (rpc (client w3))
    = (sent (rpc (client w))
       ++ [ {| method := "subscribe"; params_query := Some q |};
            {| method := "unsubscribe"; params_query := Some q |} ])%list
    /\ lookup_subscription (subscriptions (client w2)) (Result.id result) = Entry s
    /\ Subscription.id s = Result.id result
    /\ Subscription.query s = q
    /\ inflight w3 = (inflight w ++ [UnsubscribeRequest (Result.id result)])%list.
Proof.
  intros w Hws w1 w2 w3.
  destruct (subscribe_sends (client w) eventName conditions callback Hws)
    as (count & c & Hsub).
  pose proof (invariant_run _ actions (invariant_boot endpoint)) as [Hwf _].
  fold w in Hwf.
  assert (w1 = {| client :=
                    set_rpc (set_countSubscribeEvent (client w) count)
                      (call (rpc (client w)) "subscribe" (Some (Closure.query c)));
                  inflight := inflight w ++ [SubscribeRequest c] |}) as Hw1.
  { unfold w1. simpl. by rewrite Hsub. }
  assert (w2 = {| client := subscribe_then (client w1) c result;
                  inflight := inflight w |}) as Hw2.
  { unfold w2. simpl. unfold settle. rewrite Hw1. simpl.
    rewrite list_lookup_middle by done. f_equal.
    rewrite delete_middle. by rewrite app_nil_r. }
  assert (lookup_subscription (subscriptions (client w2)) (Result.id result)
          = Entry (subscription_of c result)) as Hreg.
  { rewrite Hw2, Hw1. simpl. by apply lookup_store_eq. }
  exists (Closure.query c), (subscription_of c result).
  split; [|split; [exact Hreg | split; [done | split; [done|]]]].
  - unfold w3. simpl. unfold unsubscribe. rewrite Hreg.
    rewrite Hw2, Hw1. simpl. rewrite Hws. simpl. by rewrite <- app_assoc.
  - unfold w3. simpl. unfold unsubscribe. rewrite Hreg.
    rewrite Hw2, Hw1. simpl. by rewrite Hws.
Qed.

End Consistency.

(** ** More of the query builder and of [subscribe] *)

Lemma whitespace_add n m : whitespace (n + m) = whitespace n +:+ whitespace m.
Proof.
  induction n as [|n IH]; [reflexivity|].
  change (String " " (whitespace (n + m))
          = String " " (whitespace n +:+ whitespace m)).
  by rewrite IH.
Qed.

(** Text that starts with a quote after [n] spaces is not text that
    starts with a quote after more than [n] spaces. *)
Lemma whitespace_then_quote n d a b :
  whitespace n +:+ "'" +:+ a <> whitespace (n + S d) +:+ "'" +:+ b.
Proof.
  rewrite whitespace_add, append_assoc. intros Heq.
  apply (inj (String.append (whitespace n))) in Heq.
  discriminate Heq.
Qed.

Section BuilderFacts.
Context `{Runtime}.

(** X8.  [getPastEvents] works over any transport and throws in one case
    only, when the conditions are the empty string: [searchTransactions]
    then refuses the query.  In every other case the query is not empty
    and goes out in one [tx_search] request, the client being otherwise
    unchanged. *)
Theorem getPastEvents_throws_only_on_empty_string
    (this : IceTeaWeb3) (eventName : string) (emitter : option string)
    (conditions : Conditions) :
  (conditions = CondString "" ->
   getPastEvents this eventName emitter conditions
   = Throw (Err ("query is required, example " +:+ dquote +:+ "tx.height>0"
                 +:+ dquote)))
  /\ (conditions <> CondString "" ->
      getPastEvents_query eventName emitter conditions <> ""
      /\ getPastEvents this eventName emitter conditions
         = Normal
             (set_rpc this
                (call (rpc this) "tx_search"
                   (Some (getPastEvents_query eventName emitter conditions))))).
Proof.
  split; [by intros ->|]. intros Hne.
  assert (getPastEvents_query eventName emitter conditions <> "") as Hq.
  { unfold getPastEvents_query.
    destruct conditions as [| s | o | f]; simpl default_conditions; cbv iota;
      try (rewrite reduce_join_clauses, concat_seed, !append_assoc; discriminate).
    intros ->. by destruct Hne. }
  split; [exact Hq|].
  unfold getPastEvents, searchTransactions.
  apply String.eqb_neq in Hq. by rewrite Hq.
Qed.

Lemma non_system_query this eventName conditions callback :
  isWebSocket this = true ->
  mem eventName systemEvent = false ->
  (forall s, conditions <> CondString s) ->
  exists this' c tail,
    subscribe this eventName conditions callback = Normal (this', c)
    /\ countSubscribeEvent this' = S (countSubscribeEvent this)
    /\ Closure.query c
       = "tm.event = " +:+ whitespace (countSubscribeEvent this') +:+ "'" +:+ tail.
Proof.
  intros Hws Hsys Hcond. eexists _, _, _. split.
  - by apply subscribe_structured.
  - rewrite Hsys. simpl. split; [lia|].
    rewrite reduce_join_clauses, concat_seed, spaces_whitespace.
    rewrite !append_assoc. reflexivity.
Qed.

(** X9.  Over a WebSocket, two [subscribe] calls for event names that are
    not system events, with conditions that are not strings, never send
    the same query, whichever the names and conditions and whatever the
    client does in between: the inserted spaces tell them apart. *)
Theorem non_system_subscriptions_send_distinct_queries
    (w : World) (actions : list Action)
    (eventName1 eventName2 : string) (conditions1 conditions2 : Conditions)
    (callback1 callback2 : option Fn) :
  isWebSocket (client w) = true ->
  mem eventName1 systemEvent = false ->
  mem eventName2 systemEvent = false ->
  (forall s, conditions1 <> CondString s) ->
  (forall s, conditions2 <> CondString s) ->
  let w2 := run (step w (CallSubscribe eventName1 conditions1 callback1)) actions in
  exists this1 c1 this2 c2,
    subscribe (client w) eventName1 conditions1 callback1 = Normal (this1, c1)
    /\ subscribe (client w2) eventName2 conditions2 callback2 = Normal (this2, c2)
    /\ Closure.query c1 <> Closure.query c2.
Proof.
  intros Hws Hsys1 Hsys2 Hcond1 Hcond2 w2.
  destruct (non_system_query (client w) eventName1 conditions1 callback1
              Hws Hsys1 Hcond1) as (this1 & c1 & tail1 & Hsub1 & Hcount1 & Hq1).
  assert (isWebSocket (client w2) = true) as Hws2.
  { unfold w2. by rewrite run_isWebSocket, step_isWebSocket. }
  destruct (non_system_query (client w2) eventName2 conditions2 callback2
              Hws2 Hsys2 Hcond2) as (this2 & c2 & tail2 & Hsub2 & Hcount2 & Hq2).
  exists this1, c1, this2, c2. split; [done|]. split; [done|].
  pose proof (run_count (step w (CallSubscribe eventName1 conditions1 callback1))
                actions) as Hle.
  fold w2 in Hle. simpl in Hle. rewrite Hsub1 in Hle. simpl in Hle.
  rewrite Hq1, Hq2. intros Heq.
  apply (inj (String.append "tm.event = ")) in Heq.
  replace (countSubscribeEvent this2)
    with (countSubscribeEvent this1
          + S (countSubscribeEvent this2 - S (countSubscribeEvent this1)))
    in Heq by lia.
  by apply whitespace_then_quote in Heq.
Qed.

(** X10.  A subscription to a system event leaves the counter alone, so
    two subscriptions in a row to the same system event with the same
    conditions send the very same query; the record of each names the
    event itself as its method. *)
Theorem system_subscriptions_repeat_the_query
    (this : IceTeaWeb3) (eventName : string) (conditions : Conditions)
    (callback1 callback2 : option Fn) :
  isWebSocket this = true ->
  mem eventName systemEvent = true ->
  exists this1 c1 this2 c2,
    subscribe this eventName conditions callback1 = Normal (this1, c1)
    /\ subscribe this1 eventName conditions callback2 = Normal (this2, c2)
    /\ Closure.query c1 = Closure.query c2
    /\ countSubscribeEvent this2 = countSubscribeEvent this
    /\ (forall result,
          Subscription.subscribeMethod (subscription_of c1 result) = eventName).
Proof.
  intros Hws Hsys.
  assert (forall this0 callback,
            isWebSocket this0 = true ->
            countSubscribeEvent this0 = countSubscribeEvent this ->
            exists this' c,
              subscribe this0 eventName conditions callback = Normal (this', c)
              /\ countSubscribeEvent this' = countSubscribeEvent this
              /\ isWebSocket this' = true
              /\ Closure.nonSystemEventName c = None
              /\ Closure.eventName c = eventName
              /\ Closure.query c
                 = match default_conditions conditions with
                   | CondString s => s
                   | c' =>
                       reduce_join
                         ("tm.event = " +:+ spaces (countSubscribeEvent this)
                            +:+ "'" +:+ eventName +:+ "'")
                         (properties c')
                   end) as Hone.
  { intros this0 callback Hws0 Hcount. unfold subscribe.
    rewrite Hws0, Hsys, Hcount.
    destruct conditions as [| s | o | f]; destruct callback; simpl;
      by eexists _, _. }
  destruct (Hone this callback1 Hws eq_refl)
    as (this1 & c1 & Hsub1 & Hcount1 & Hws1 & Hnon1 & Hname1 & Hq1).
  destruct (Hone this1 callback2 Hws1 Hcount1)
    as (this2 & c2 & Hsub2 & Hcount2 & _ & _ & _ & Hq2).
  exists this1, c1, this2, c2. repeat split; try done; [congruence|].
  intros result. unfold subscription_of. simpl. by rewrite Hnon1, Hname1.
Qed.

End BuilderFacts.

(** ** Transactions *)

Section TransactionFacts.
Context `{Chain}.

(** X12.  In a mode other than the two JavaScript modes, [_serializeData]
    throws exactly when the source is neither a string nor a Buffer; a
    string source is stored as it is.  Whenever it returns, the form
    carries the deploy operation with the mode and parameters given and
    no sender, and its value and fee are the options' when these are
    truthy and the number 0 otherwise. *)
Theorem serializeData_form
    (mode : Z) (src : Source) (params : list Value) (options : Options.t) :
  (mode <> JS_DECORATED -> mode <> JS_RAW ->
   match src with
   | SourceOther _ =>
       _serializeData mode src params options
       = Throw (Err "Wasm binary must be in form of Buffer or base64-encoded string.")
   | SourceString s =>
       exists tx d,
         _serializeData mode src params options = Normal tx
         /\ Tx.data tx = Some d /\ TxData.src d = s
   | SourceBuffer _ =>
       exists tx, _serializeData mode src params options = Normal tx
   end)
  /\ (forall tx,
        _serializeData mode src params options = Normal tx ->
        Tx.from tx = None
        /\ (exists d,
              Tx.data tx = Some d
              /\ TxData.op d = DEPLOY_CONTRACT
              /\ TxData.mode d = mode
              /\ TxData.params d = params)
        /\ Tx.value tx
           = (if truthy (Options.value options) then Options.value options
              else VNum 0)
        /\ Tx.fee tx
           = (if truthy (Options.fee options) then Options.fee options
              else VNum 0)).
Proof.
  split.
  - intros Hd Hr. unfold _serializeData.
    apply Z.eqb_neq in Hd, Hr. rewrite Hd, Hr. simpl.
    destruct src; eauto.
  - intros tx. unfold _serializeData.
    destruct ((mode =? JS_DECORATED)%Z || (mode =? JS_RAW)%Z).
    + destruct (switchEncoding src "utf8" "base64"); [|done].
      intros [= <-]. simpl. eauto 10.
    + destruct src; [| |done]; intros [= <-]; simpl; eauto 10.
Qed.

(** X13.  A WebAssembly binary given to [deploy] as a Buffer does not
    reach the transaction: in a mode other than the two JavaScript modes
    the source stored is [Buffer.toString('base64')], the text of the
    constructor, so that two Buffers of different content are deployed as
    the same transaction. *)
Theorem deploy_drops_the_buffer_content
    (mode : Z) (bytes1 bytes2 : string) (params : list Value)
    (options : Options.t) :
  mode <> JS_DECORATED -> mode <> JS_RAW ->
  deploy mode (SourceBuffer bytes1) params options
  = deploy mode (SourceBuffer bytes2) params options
  /\ exists tx d,
       _serializeData mode (SourceBuffer bytes1) params options = Normal tx
       /\ Tx.data tx = Some d
       /\ TxData.src d = Buffer_toString.
Proof.
  intros Hd Hr. unfold deploy, _serializeData.
  apply Z.eqb_neq in Hd, Hr. rewrite Hd, Hr. simpl.
  split; [reflexivity|]. eexists _, _. by repeat split.
Qed.

(** X14.  [deploy] sends nothing unless the form can be built and the
    wallet has a key for [options.from]; the key that signs is another
    one, though: [sendTransactionCommit] drops the key it is handed and
    asks the wallet for the key of the form's sender, which the form does
    not have.  So whenever [deploy] sends a transaction, it is the form
    signed with the wallet's key for an undefined address, broadcast with
    [broadcast_tx_commit]. *)
Theorem deploy_signs_with_the_key_of_no_address
    (mode : Z) (src : Source) (params : list Value) (options : Options.t)
    (request : Broadcast) :
  deploy mode src params options = Normal request ->
  exists tx key,
    _serializeData mode src params options = Normal tx
    /\ no_key (getPrivateKeyByAddress (Options.from options)) = false
    /\ getPrivateKeyByAddress None = Some key
    /\ key <> ""
    /\ request = {| broadcast_method := "broadcast_tx_commit";
                    signed := signTransaction tx key |}.
Proof.
  unfold deploy.
  destruct (_serializeData mode src params options) as [tx|] eqn:Hform; [|done].
  destruct (no_key (getPrivateKeyByAddress (Options.from options))) eqn:Hfrom;
    [done|].
  unfold sendTransactionCommit, sendTransaction.
  assert (Tx.from tx = None) as ->.
  { unfold _serializeData in Hform.
    destruct ((mode =? JS_DECORATED)%Z || (mode =? JS_RAW)%Z).
    - destruct (switchEncoding src "utf8" "base64"); [|done].
      by injection Hform as <-.
    - destruct src; [| |done]; by injection Hform as <-. }
  destruct (getPrivateKeyByAddress None) as [key|] eqn:Hkey; [|done].
  simpl. destruct (String.eqb_spec key ""); [done|].
  intros [= <-]. by exists tx, key.
Qed.

End TransactionFacts.

(** ** These properties at concrete inputs *)

Section FurtherExamples.
#[local] Existing Instance Sample.runtime.
#[local] Existing Instance SampleChain.chain.

(** X1 for a client over HTTP on which everything is tried. *)
Lemma http_client_stays_inert_witness :
  let actions :=
    [ CallSubscribe "Transferred" CondMissing (Some 7);
      CallGetPastEvents "Transferred" None (CondObject Sample.conditions);
      CallOn OnMessage 3;
      CallUnsubscribe "0.42";
      Resolve 0 (Result.make "0.42");
      CallClose ] in
  let w := run (boot "http://localhost:26657") actions in
  String.prefix "ws://" "http://localhost:26657" = false
  /\ String.prefix "wss://" "http://localhost:26657" = false
  /\ listeners (rpc (client w)) = []
  /\ length (sent (rpc (client w))) = 1
  /\ Forall (fun r => method r = "tx_search") (sent (rpc (client w))).
Proof.
  intros actions w.
  destruct (http_client_stays_inert "http://localhost:26657" actions
              eq_refl eq_refl) as (_ & Hl & _ & _ & _ & Hsent).
  split; [reflexivity|]. split; [reflexivity|]. split; [exact Hl|].
  split; [vm_compute; reflexivity | exact Hsent].
Defined.

(** X2 for a run with two subscriptions to non-system events among
    other actions. *)
Lemma counter_counts_witness :
  let actions :=
    [ CallSubscribe "Transferred" CondMissing (Some 7);
      CallSubscribe "NewBlock" CondMissing (Some 9);
      Resolve 0 (Result.make "0.42");
      CallSubscribe "Minted" (CondString "tx.height>0") (Some 8);
      CallUnsubscribe "0.42";
      Reject 0 ] in
  isWebSocket (client (boot Sample.endpoint)) = true
  /\ countSubscribeEvent (client (run (boot Sample.endpoint) actions)) = 2.
Proof.
  intros actions. split; [reflexivity|].
  rewrite (counter_counts_non_system_subscribes (boot Sample.endpoint) actions
             eq_refl).
  vm_compute. reflexivity.
Defined.

(** X3 for a subscription to [NewBlock] with callback [9]. *)
Lemma router_system_message_witness :
  let c := Closure.make true None "NewBlock" "tm.event = 'NewBlock'" (Some 9) in
  mem "NewBlock" systemEvent = true
  /\ JSON_parse Sample.message = Some Sample.envelope
  /\ includes "0.42#event" "0.42" = true
  /\ onMessage_handler empty_registry c (Result.make "0.42") Sample.message
     = ([{| callee := 9; arguments := [VStr Sample.message] |}], Normal tt).
Proof.
  intros c.
  assert (subscribe (constructor Sample.endpoint) "NewBlock" CondMissing (Some 9)
          = Normal (client (step (boot Sample.endpoint)
                              (CallSubscribe "NewBlock" CondMissing (Some 9))),
                    c)) as Hsub by (vm_compute; reflexivity).
  assert (JSON_parse Sample.message = Some Sample.envelope) as Hparse
    by (vm_compute; reflexivity).
  assert (includes "0.42#event" "0.42" = true) as Hin by (vm_compute; reflexivity).
  assert (Result.id (Result.make "0.42") <> "") as Hid by discriminate.
  split; [reflexivity|]. split; [exact Hparse|]. split; [exact Hin|].
  exact (router_passes_system_message_verbatim _ _ _ _ _ _ (Result.make "0.42") 9
           empty_registry Sample.message Sample.envelope "0.42#event"
           Hsub eq_refl eq_refl Hid Hparse eq_refl Hin).
Defined.

(** X4 for a subscription whose id the message does not carry. *)
Lemma router_ignores_other_ids_witness :
  JSON_parse Sample.message = Some Sample.envelope
  /\ includes "0.42#event" "0.77" = false
  /\ onMessage_handler (subscriptions (client (Sample.subscribed "0.77")))
       Sample.transferred (Result.make "0.77") Sample.message
     = ([], Normal tt).
Proof.
  assert (JSON_parse Sample.message = Some Sample.envelope) as Hparse
    by (vm_compute; reflexivity).
  assert (includes "0.42#event" (Result.id (Result.make "0.77")) = false) as Hout
    by (vm_compute; reflexivity).
  split; [exact Hparse|]. split; [exact Hout|].
  exact (router_ignores_other_ids _ Sample.transferred (Result.make "0.77")
           Sample.message Sample.envelope "0.42#event" Hparse eq_refl Hout).
Defined.

(** X5 for the subscription that resolved to [0.42], unsubscribed since:
    the message with a [Transferred] event makes its listener throw. *)
Lemma unregistered_subscription_witness :
  let w := run (Sample.subscribed "0.42")
             [CallUnsubscribe "0.42"; Resolve 0 (Result.make "0.43")] in
  lookup_subscription (subscriptions (client w)) "0.42" = Absent
  /\ listeners (rpc (client w))
     = [("onMessage", SubscriptionListener Sample.transferred (Result.make "0.42"))]
  /\ onMessage_handler (subscriptions (client w)) Sample.transferred
       (Result.make "0.42") Sample.message
     = ([], Throw TypeError).
Proof.
  intros w.
  assert (lookup_subscription (subscriptions (client w))
            (Result.id (Result.make "0.42")) = Absent) as Habsent
    by (vm_compute; reflexivity).
  assert (JSON_parse Sample.message = Some Sample.envelope) as Hparse
    by (vm_compute; reflexivity).
  assert (includes "0.42#event" (Result.id (Result.make "0.42")) = true) as Hin
    by (vm_compute; reflexivity).
  assert (Result.id (Result.make "0.42") <> "") as Hid by discriminate.
  assert ("Transferred" <> "") as Hname by discriminate.
  destruct (unregistered_subscription_is_never_called_back
              (subscriptions (client w)) Sample.transferred (Result.make "0.42")
              Sample.message eq_refl Habsent) as [_ Hthrows].
  split; [exact Habsent|]. split; [vm_compute; reflexivity|].
  rewrite (Hthrows Sample.envelope "0.42#event" "Transferred" _
             Hparse eq_refl Hin Hid eq_refl Hname eq_refl).
  vm_compute. reflexivity.
Defined.

(** X6 for the subscription that resolved to [0.42]. *)
Lemma registered_subscriptions_witness :
  let this := client (Sample.subscribed "0.42") in
  let record := Subscription.make "0.42" "Transferred" "tm.event =  'Tx'" in
  lookup_subscription (subscriptions this) "0.42" = Entry record
  /\ exists c result,
       In ("onMessage", SubscriptionListener c result) (listeners (rpc this))
       /\ record = subscription_of c result.
Proof.
  intros this record.
  assert (lookup_subscription (subscriptions this) "0.42" = Entry record) as Hreg
    by (vm_compute; reflexivity).
  split; [exact Hreg|].
  exact (proj2 (proj2 (registered_subscriptions_have_listeners Sample.endpoint
                         [ CallSubscribe "Transferred" CondMissing (Some 7);
                           Resolve 0 (Result.make "0.42") ]
                         "0.42" record Hreg))).
Defined.

(** X7 for a fresh client over a WebSocket. *)
Lemma unsubscribe_sends_the_subscribed_query_witness :
  let w3 :=
    run (boot Sample.endpoint)
      [ CallSubscribe "Transferred" (CondObject Sample.conditions) (Some 7);
        Resolve 0 (Result.make "0.42");
        CallUnsubscribe "0.42" ] in
  isWebSocket (client (boot Sample.endpoint)) = true
  /\ exists q,
       sent (rpc (client w3))
       = [ {| method := "subscribe"; params_query := Some q |};
           {| method := "unsubscribe"; params_query := Some q |} ].
Proof.
  intros w3. split; [reflexivity|].
  destruct (unsubscribe_sends_the_subscribed_query Sample.endpoint []
              "Transferred" (CondObject Sample.conditions) (Some 7)
              (Result.make "0.42") eq_refl) as (q & s & Hsent & _).
  exists q. exact Hsent.
Defined.

(** X8 over HTTP: the empty string is refused, no conditions at all are
    fine. *)
Lemma getPastEvents_empty_string_witness :
  let this := constructor "http://localhost:26657" in
  (exists message, getPastEvents this "Transferred" None (CondString "")
                   = Throw (Err message))
  /\ CondMissing <> CondString ""
  /\ getPastEvents this "Transferred" None CondMissing
     = Normal (set_rpc this
                 (call (rpc this) "tx_search"
                    (Some "EventNames CONTAINS '.Transferred|'"))).
Proof.
  intros this.
  destruct (getPastEvents_throws_only_on_empty_string this "Transferred" None
              (CondString "")) as [Hempty _].
  destruct (getPastEvents_throws_only_on_empty_string this "Transferred" None
              CondMissing) as [_ Hother].
  assert (CondMissing <> CondString "") as Hne by discriminate.
  split; [eexists; exact (Hempty eq_refl)|]. split; [exact Hne|].
  exact (proj2 (Hother Hne)).
Defined.

(** X9 for subscriptions to [Transferred] and to [Minted], the first
    resolved in between. *)
Lemma distinct_queries_witness :
  isWebSocket (client (boot Sample.endpoint)) = true
  /\ mem "Transferred" systemEvent = false
  /\ mem "Minted" systemEvent = false
  /\ exists this1 c1 this2 c2,
       subscribe (client (boot Sample.endpoint)) "Transferred" CondMissing (Some 7)
       = Normal (this1, c1)
       /\ subscribe
            (client (run (step (boot Sample.endpoint)
                            (CallSubscribe "Transferred" CondMissing (Some 7)))
                       [Resolve 0 (Result.make "0.42")]))
            "Minted" (CondObject Sample.conditions) (Some 8)
          = Normal (this2, c2)
       /\ Closure.query c1 <> Closure.query c2.
Proof.
  assert (forall s, CondMissing <> CondString s) as Hc1 by discriminate.
  assert (forall s, CondObject Sample.conditions <> CondString s) as Hc2
    by discriminate.
  split; [reflexivity|]. split; [reflexivity|]. split; [reflexivity|].
  exact (non_system_subscriptions_send_distinct_queries (boot Sample.endpoint)
           [Resolve 0 (Result.make "0.42")] "Transferred" "Minted"
           CondMissing (CondObject Sample.conditions) (Some 7) (Some 8)
           eq_refl eq_refl eq_refl Hc1 Hc2).
Defined.

(** X10 for two subscriptions to [NewBlock] after one to [Transferred]. *)
Lemma system_subscriptions_witness :
  let this := client (Sample.subscribed "0.42") in
  isWebSocket this = true
  /\ mem "NewBlock" systemEvent = true
  /\ exists this1 c1 this2 c2,
       subscribe this "NewBlock" CondMissing (Some 9) = Normal (this1, c1)
       /\ subscribe this1 "NewBlock" CondMissing (Some 9) = Normal (this2, c2)
       /\ Closure.query c1 = Closure.query c2
       /\ countSubscribeEvent this2 = 1.
Proof.
  intros this.
  assert (isWebSocket this = true) as Hws by (vm_compute; reflexivity).
  split; [exact Hws|]. split; [reflexivity|].
  destruct (system_subscriptions_repeat_the_query this "NewBlock" CondMissing
              (Some 9) (Some 9) Hws eq_refl)
    as (this1 & c1 & this2 & c2 & Hsub1 & Hsub2 & Hq & Hcount & _).
  exists this1, c1, this2, c2.
  split; [exact Hsub1|]. split; [exact Hsub2|]. split; [exact Hq|].
  rewrite Hcount. vm_compute. reflexivity.
Defined.

(** X12 in the mode [100]: a value that is neither string nor Buffer is
    refused, a string is stored, a missing fee becomes 0. *)
Lemma serializeData_form_witness :
  (100 <> JS_DECORATED /\ 100 <> JS_RAW)%Z
  /\ _serializeData 100 (SourceOther VNull) [] SampleChain.options
     = Throw (Err "Wasm binary must be in form of Buffer or base64-encoded string.")
  /\ exists tx,
       _serializeData 100 (SourceString "AGFzbQ") [] SampleChain.options = Normal tx
       /\ Tx.value tx = VNum 5 /\ Tx.fee tx = VNum 0.
Proof.
  assert (100 <> JS_DECORATED)%Z as Hd by discriminate.
  assert (100 <> JS_RAW)%Z as Hr by discriminate.
  split; [by split|]. split.
  - exact (proj1 (serializeData_form 100 (SourceOther VNull) [] SampleChain.options)
             Hd Hr).
  - destruct (proj1 (serializeData_form 100 (SourceString "AGFzbQ") []
                       SampleChain.options) Hd Hr) as (tx & d & Htx & _).
    exists tx. split; [exact Htx|].
    destruct (proj2 (serializeData_form 100 (SourceString "AGFzbQ") []
                       SampleChain.options) tx Htx) as (_ & _ & Hv & Hf).
    split; [exact Hv | exact Hf].
Defined.

(** X13 for two Buffers in the mode [100]. *)
Lemma deploy_drops_the_buffer_content_witness :
  (100 <> JS_DECORATED /\ 100 <> JS_RAW)%Z
  /\ deploy 100 (SourceBuffer "first") [] SampleChain.options
     = deploy 100 (SourceBuffer "second") [] SampleChain.options.
Proof.
  assert (100 <> JS_DECORATED)%Z as Hd by discriminate.
  assert (100 <> JS_RAW)%Z as Hr by discriminate.
  split; [by split|].
  exact (proj1 (deploy_drops_the_buffer_content 100 "first" "second" []
                  SampleChain.options Hd Hr)).
Defined.

(** X14 for a deployment from [teat1alice]: the default key signs. *)
Lemma deploy_signs_witness :
  getPrivateKeyByAddress (Some "teat1alice") = Some "alice-key"
  /\ exists request,
       deploy 100 (SourceString "AGFzbQ") [] SampleChain.options = Normal request
       /\ signed request = VArr [VNum 5; VStr "default-key"].
Proof.
  split; [reflexivity|].
  assert (exists request,
            deploy 100 (SourceString "AGFzbQ") [] SampleChain.options
            = Normal request) as [request Hdeploy]
    by (eexists; vm_compute; reflexivity).
  exists request. split; [exact Hdeploy|].
  destruct (deploy_signs_with_the_key_of_no_address _ _ _ _ _ Hdeploy)
    as (tx & key & Hform & _ & Hkey & _ & ->).
  vm_compute in Hform, Hkey. injection Hform as <-. injection Hkey as <-.
  reflexivity.
Defined.

End FurtherExamples.
